(** * Verification model of [core/indexer.py] (class [Indexer])

    The Python methods of [Indexer] are embedded as functions in a small
    state-and-exception monad.  Everything the class reaches outside of
    itself (the [requests] session, the file system, Playwright, the
    [unstructured] partitioner, the table summarizer, [slugify],
    [json.dumps], the helpers of [core.utils] and [core.extract]) is a
    field of an environment record; the answers of the stateful
    collaborators may depend on the history of interactions so far. *)

From Stdlib Require Import String Ascii List ZArith QArith Bool Lia DecimalString.
Import ListNotations.
Open Scope string_scope.
Open Scope Z_scope.
Open Scope list_scope.

(** ** Python values, strings and exceptions *)

Module Py.

(** Exceptions the modelled code can meet.  All of them derive from
    [Exception]; [PlaywrightTimeoutError] is the one caught by name. *)
Inductive exn : Type :=
| TypeError
| KeyError
| IndexError
| AttributeError
| UnboundLocalError
| JSONDecodeError
| PlaywrightTimeoutError
| OtherError (msg : string).

Inductive Result (A : Type) : Type :=
| Ret (a : A)
| Raise (e : exn).
Arguments Ret {A} a.
Arguments Raise {A} e.

Definition rbind {A B} (r : Result A) (k : A -> Result B) : Result B :=
  match r with
  | Ret a => k a
  | Raise e => Raise e
  end.

(** JSON-shaped Python values: what [response.json()] returns and what
    documents and metadata dictionaries are made of.  A [dict] keeps the
    insertion order of its keys. *)
#[warnings="-register-all"]
Inductive pyval : Type :=
| PNone
| PBool (b : bool)
| PInt (z : Z)
| PStr (s : string)
| PList (l : list pyval)
| PDict (d : list (string * pyval)).

(** [bool(v)] *)
Definition truthy (v : pyval) : bool :=
  match v with
  | PNone => false
  | PBool b => b
  | PInt z => negb (z =? 0)
  | PStr s => negb (s =? "")%string
  | PList l => match l with [] => false | _ => true end
  | PDict d => match d with [] => false | _ => true end
  end.

Fixpoint lookup (k : string) (d : list (string * pyval)) : option pyval :=
  match d with
  | [] => None
  | (k', v) :: d' => if (k' =? k)%string then Some v else lookup k d'
  end.

(** [needle in hay] on two [str]: substring test. *)
Fixpoint str_in (needle hay : string) : bool :=
  prefix needle hay ||
  match hay with
  | EmptyString => false
  | String _ t => str_in needle t
  end.

Definition is_str (k : string) (v : pyval) : bool :=
  match v with
  | PStr s => (s =? k)%string
  | _ => false
  end.

(** [k in v] for a [str] key [k]. *)
Definition py_in (k : string) (v : pyval) : Result bool :=
  match v with
  | PDict d => Ret (match lookup k d with Some _ => true | None => false end)
  | PStr s => Ret (str_in k s)
  | PList l => Ret (existsb (is_str k) l)
  | _ => Raise TypeError
  end.

(** [v[k]] for a [str] key [k]. *)
Definition getitem (v : pyval) (k : string) : Result pyval :=
  match v with
  | PDict d => match lookup k d with Some x => Ret x | None => Raise KeyError end
  | _ => Raise TypeError
  end.

(** A [str] is held as its UTF-8 encoding; [len(s)] counts its
    characters (code points), that is the bytes that do not continue a
    multi-byte sequence. *)
Definition is_continuation_byte (c : ascii) : bool :=
  let n := nat_of_ascii c in ((128 <=? n) && (n <? 192))%nat.

Fixpoint len (s : string) : nat :=
  match s with
  | EmptyString => O
  | String c t => ((if is_continuation_byte c then 0 else 1) + len t)%nat
  end.

(** [s.endswith(suffix)] *)
Definition endswith (s suffix : string) : bool :=
  (String.length suffix <=? String.length s)%nat &&
  (substring (String.length s - String.length suffix) (String.length suffix) s =? suffix)%string.

Definition lower_ascii (c : ascii) : ascii :=
  let n := nat_of_ascii c in
  if ((65 <=? n) && (n <=? 90))%nat then ascii_of_nat (n + 32) else c.

(** [s.lower()] on ASCII text. *)
Fixpoint lower (s : string) : string :=
  match s with
  | EmptyString => EmptyString
  | String c t => String (lower_ascii c) (lower t)
  end.

Fixpoint rev_string_onto (acc s : string) : string :=
  match s with
  | EmptyString => acc
  | String c t => rev_string_onto (String c acc) t
  end.

(** [split_go sep s skip cur]: [cur] holds the current piece reversed,
    [skip] counts the characters of a separator still to be dropped. *)
Fixpoint split_go (sep s : string) (skip : nat) (cur : string) : list string :=
  match s with
  | EmptyString => [rev_string_onto "" cur]
  | String c t =>
      match skip with
      | S n => split_go sep t n cur
      | O =>
          if prefix sep s
          then rev_string_onto "" cur :: split_go sep t (String.length sep - 1) ""
          else split_go sep t O (String c cur)
      end
  end.

(** [s.split(sep)] for a non-empty separator. *)
Definition split (sep s : string) : list string := split_go sep s O "".

(** [l[i]] on a list, for [i >= 0]. *)
Definition index_nat {A} (l : list A) (i : nat) : Result A :=
  match nth_error l i with
  | Some x => Ret x
  | None => Raise IndexError
  end.

(** [l[-1]] *)
Definition index_last {A} (l : list A) : Result A :=
  match rev l with
  | x :: _ => Ret x
  | [] => Raise IndexError
  end.

(** [str(n)] for an [int]. *)
Definition str_of_Z (z : Z) : string := NilZero.string_of_int (Z.to_int z).

End Py.
Export Py.

(** ** The world outside the [Indexer] *)

(** Body of a POST: [data=...] or the multipart [files=...] of an upload
    (the file part, named by [uri] and read from the open handle of
    [filename], and the [doc_metadata] part). *)
Inductive Payload : Type :=
| Data (data : string)
| Files (uri filename doc_metadata : string).

Record Request : Type := mkRequest {
  rq_url : string;
  rq_payload : Payload;
  rq_headers : list (string * string)
}.

(** What the code reads of a [requests.Response]. *)
Record Response : Type := mkResponse {
  status_code : Z;
  reason : string;
  text : string;
  json : Result pyval          (* [response.json()], which may raise *)
}.

(** Element classes of [unstructured.documents.elements]; the code tests
    the exact class with [type(x) == ...]. *)
Inductive ElType : Type := Title | NarrativeText | Table | ListItem | OtherElement.

Record Element : Type := mkElement {
  el_type : ElType;
  el_text : string            (* [str(x)] *)
}.

Definition is_Title (e : Element) : bool :=
  match el_type e with Title => true | _ => false end.
Definition is_Table (e : Element) : bool :=
  match el_type e with Table => true | _ => false end.

Inductive BrowserOp : Type :=
| NewContext
| NewPage
| SetExtraHttpHeaders
| OnDownload
| OnConsole
| RouteImages
| Goto (url : string) (timeout_ms : option Z) (wait_until : option string)
| PageContent
| PageUrl
| QueryLinks
| ClosePage
| CloseContext
| IsConnected
| LaunchFirefox.

(** Interactions with the outside, in the order they happen. *)
Inductive IO : Type :=
| IoPost (rq : Request)
| IoGet (url : string)
| IoOpenRead (path : string)
| IoWriteFile (path : string) (chunks : list string)
| IoBrowser (op : BrowserOp)
| IoPartitionPdf (filename : string)
| IoNewSummarizer (key : option string)
| IoSummarize (table_text : string).

Definition History := list IO.

(** The collaborators.  A stateful one answers from the history of
    interactions that precede the call; [Raise] is an exception thrown by
    the call. *)
Record Env : Type := mkEnv {
  (* requests session *)
  session_post : History -> Request -> Result Response;
  session_get : History -> string -> Result (Z * Result (list string));
  (* file system, [core.utils.get_file_size_in_MB] *)
  path_exists : History -> string -> bool;
  open_rb : History -> string -> Result unit;
  write_file : History -> string -> list string -> Result unit;
  get_file_size_in_MB : History -> string -> Result Q;
  (* playwright: [goto] also tells whether a download event fired *)
  pw_call : History -> BrowserOp -> Result unit;
  pw_goto : History -> string -> bool * Result unit;
  pw_content : History -> Result (option string);
  pw_url : History -> Result string;
  pw_links : History -> Result (list (option string));
  pw_is_connected : History -> Result bool;
  (* unstructured, [core.utils.TableSummarizer] *)
  partition_pdf : History -> string -> Result (list Element);
  new_TableSummarizer : History -> option string -> Result unit;
  summarize_table_text : History -> string -> Result string;
  (* pure library functions *)
  slugify : string -> string;
  json_dumps : pyval -> Result string;
  soup_body_text : string -> Result string;
  detect_language : string -> Result string;
  get_content_and_title : string -> string -> string -> bool -> Result (string * option string);
  html_to_text : string -> bool -> Result string;
  publish_string_html : string -> Result string;
  markdown_markdown : string -> Result string;
  notebook_to_html : string -> Result string
}.

(** ** Logging and call instrumentation *)

Inductive Level : Type := INFO | ERROR.

(** A log message before formatting: literal text and interpolated values. *)
Inductive Piece : Type :=
| Lit (s : string)
| VStr (s : string)
| VInt (z : Z)
| VVal (v : pyval)
| VExn (e : exn).

Definition LogRec : Type := (Level * list Piece)%type.

(** Entries of [Indexer] methods, with their arguments: [C_m] records a
    call of the method [m]. *)
Inductive Call : Type :=
| C_url_triggers_download (url : string)
| C_fetch_page_contents (url : string)
| C_delete_doc (doc_id : pyval)
| C__index_file (filename uri : string) (metadata : pyval)
| C__index_document (document : pyval)
| C__parse_pdf_file (filename : string) (tables_only : bool)
| C_index_url (url : string) (metadata : pyval)
| C_index_segments (doc_id : string) (texts : list string)
    (titles : option (list string)) (metadatas : option (list pyval))
    (doc_metadata : pyval) (doc_title : option string)
| C_index_document (document : pyval)
| C_index_file (filename uri : string) (metadata : pyval).

Record World : Type := mkWorld {
  history : History;
  invoked : list Call;
  logs : list LogRec;
  detected_language : option string     (* [self.detected_language] *)
}.

(** ** State and exception monad *)

Definition M (S A : Type) : Type := S -> Result A * S.

Definition ret {S A} (a : A) : M S A := fun s => (Ret a, s).
Definition raise {S A} (e : exn) : M S A := fun s => (Raise e, s).
Definition bind {S A B} (m : M S A) (k : A -> M S B) : M S B :=
  fun s => match m s with
           | (Ret a, s') => k a s'
           | (Raise e, s') => (Raise e, s')
           end.
Definition lift {S A} (r : Result A) : M S A := fun s => (r, s).

Notation "x <- m ;; k" := (bind m (fun x => k))
  (at level 61, m at next level, right associativity).
Notation "m ;;; k" := (bind m (fun _ => k))
  (at level 61, right associativity).

(** [try: m  except Exception as e: h e] *)
Definition try_except {S A} (m : M S A) (h : exn -> M S A) : M S A :=
  fun s => match m s with
           | (Raise e, s') => h e s'
           | r => r
           end.

(** [try: m  finally: f] *)
Definition try_finally {S A} (m : M S A) (f : M S unit) : M S A :=
  fun s => match m s with
           | (r, s') =>
               match f s' with
               | (Ret _, s'') => (r, s'')
               | (Raise e, s'') => (Raise e, s'')
               end
           end.

Definition record (ev : IO) (w : World) : World :=
  mkWorld (history w ++ [ev]) (invoked w) (logs w) (detected_language w).
Definition enter (c : Call) : M World unit :=
  fun w => (Ret tt, mkWorld (history w) (invoked w ++ [c]) (logs w) (detected_language w)).
Definition log (lvl : Level) (msg : list Piece) : M World unit :=
  fun w => (Ret tt, mkWorld (history w) (invoked w) (logs w ++ [(lvl, msg)]) (detected_language w)).
Definition set_detected_language (l : string) : M World unit :=
  fun w => (Ret tt, mkWorld (history w) (invoked w) (logs w) (Some l)).
Definition get_detected_language : M World (option string) :=
  fun w => (Ret (detected_language w), w).

(** An interaction: the collaborator answers from the history before the
    call, and the call is appended to the history whatever the answer. *)
Definition io {A} (ev : IO) (ask : History -> Result A) : M World A :=
  fun w => (ask (history w), record ev w).
(** A query that leaves no trace. *)
Definition peek {A} (ask : History -> A) : M World A :=
  fun w => (Ret (ask (history w)), w).

Fixpoint mapM {S A B} (f : A -> M S B) (l : list A) : M S (list B) :=
  match l with
  | [] => ret []
  | a :: l' => b <- f a ;; bs <- mapM f l' ;; ret (b :: bs)
  end.

Fixpoint rmap {A B} (f : A -> Result B) (l : list A) : Result (list B) :=
  match l with
  | [] => Ret []
  | a :: l' => rbind (f a) (fun b => rbind (rmap f l') (fun bs => Ret (b :: bs)))
  end.

(** ** The [Indexer] object *)

(** The keys of [cfg.vectara] that the class reads. *)
Record Cfg : Type := mkCfg {
  vectara_timeout : option Z;
  vectara_summarize_tables : option bool;
  vectara_openai_api_key : option string
}.

Record Indexer : Type := mkIndexer {
  cfg : Cfg;
  endpoint : string;
  customer_id : string;
  corpus_id : Z;
  api_key : string;
  reindex : bool;
  remove_code : bool;
  timeout : Z;
  summarize_tables : bool
}.

(** [__init__], without the session and browser start-up of [setup]. *)
Definition init (cfg : Cfg) (endpoint customer_id : string) (corpus_id : Z)
    (api_key : string) (reindex remove_code : bool) : Indexer :=
  mkIndexer cfg endpoint customer_id corpus_id api_key reindex remove_code
    (match vectara_timeout cfg with Some t => t | None => 60 end)
    (match vectara_openai_api_key cfg with
     | None => false
     | Some _ => match vectara_summarize_tables cfg with Some b => b | None => false end
     end).

Definition get_headers : list (string * string) :=
  [ ("User-Agent", "Mozilla/5.0 (Windows NT 10.0; Win64; x64; rv:98.0) Gecko/20100101 Firefox/98.0");
    ("Accept", "text/html,application/xhtml+xml,application/xml;q=0.9,image/avif,image/webp,*/*;q=0.8");
    ("Accept-Language", "en-US,en;q=0.5");
    ("Accept-Encoding", "gzip, deflate");
    ("Connection", "keep-alive") ].

(** The body test of [_index_document], lines 238-240 and 249:
    ["status" in result and result["status"] and test(result["status"])]. *)
Definition with_status (result : pyval) (test : pyval -> Result bool) : Result bool :=
  rbind (py_in "status" result) (fun has =>
  if negb has then Ret false else
  rbind (getitem result "status") (fun st =>
  if negb (truthy st) then Ret false else test st)).

Definition updates_unsupported : string := "Indexing doesn't support updating documents".

Definition says_already_exists (st : pyval) : Result bool :=
  rbind (getitem st "code") (fun code =>
  rbind (py_in "ALREADY_EXISTS" code) (fun a =>
  if a then Ret true else
  rbind (getitem st "code") (fun code' =>
  rbind (py_in "CONFLICT" code') (fun c =>
  if negb c then Ret false else
  rbind (getitem st "statusDetail") (fun detail =>
  py_in updates_unsupported detail))))).

Definition says_ok (st : pyval) : Result bool :=
  rbind (getitem st "code") (fun code => py_in "OK" code).

(** [response.json()['details'].split('document id')[1].split("'")[1]] *)
Definition conflict_doc_id (response : Response) : Result string :=
  rbind (json response) (fun body =>
  rbind (getitem body "details") (fun details =>
  match details with
  | PStr s =>
      rbind (index_nat (split "document id" s) 1) (fun rest =>
      index_nat (split "'" rest) 1)
  | _ => Raise AttributeError
  end)).

Section Methods.

Variable env : Env.
Variable self : Indexer.

Definition post_headers : list (string * string) :=
  [ ("x-api-key", api_key self); ("customer-id", customer_id self) ].

Definition post (rq : Request) : M World Response :=
  io (IoPost rq) (fun h => session_post env h rq).

Definition delete_request (data : string) : Request :=
  mkRequest ("https://" ++ endpoint self ++ "/v1/delete-doc")%string (Data data) post_headers.

Definition delete_body (doc_id : pyval) : pyval :=
  PDict [ ("customer_id", PStr (customer_id self));
          ("corpus_id", PInt (corpus_id self));
          ("document_id", doc_id) ].

Definition delete_doc (doc_id : pyval) : M World bool :=
  enter (C_delete_doc doc_id) ;;;
  data <- lift (json_dumps env (delete_body doc_id)) ;;
  response <- post (delete_request data) ;;
  if negb (status_code response =? 200) then
    log ERROR [Lit "Delete request failed for doc_id = "; VVal doc_id;
               Lit " with status code "; VInt (status_code response);
               Lit ", reason "; VStr (reason response);
               Lit ", text "; VStr (text response)] ;;;
    ret false
  else ret true.

Definition upload_url (suffix : string) : string :=
  ("https://" ++ endpoint self ++ "/upload?c=" ++ customer_id self
     ++ "&o=" ++ str_of_Z (corpus_id self) ++ suffix)%string.

Definition upload_request (suffix : string) (files : Payload) : Request :=
  mkRequest (upload_url suffix) files post_headers.

Definition _index_file (filename uri : string) (metadata : pyval) : M World bool :=
  enter (C__index_file filename uri metadata) ;;;
  present <- peek (fun h => path_exists env h filename) ;;
  if negb present then
    log ERROR [Lit "File "; VStr filename; Lit " does not exist"] ;;;
    ret false
  else
    io (IoOpenRead filename) (fun h => open_rb env h filename) ;;;
    md <- lift (json_dumps env metadata) ;;
    let files := Files uri filename md in
    response <- post (upload_request "&d=True" files) ;;
    if status_code response =? 409 then
      if reindex self then
        doc_id <- lift (conflict_doc_id response) ;;
        delete_doc (PStr doc_id) ;;;
        response' <- post (upload_request "" files) ;;
        if status_code response' =? 200 then
          log INFO [Lit "REST upload for "; VStr uri; Lit " successful (reindex)"] ;;;
          ret true
        else
          log INFO [Lit "REST upload for "; VStr uri; Lit " (reindex) failed with code = ";
                    VInt (status_code response'); Lit ", text = "; VStr (text response')] ;;;
          ret true
      else ret false
    else if negb (status_code response =? 200) then
      log ERROR [Lit "REST upload for "; VStr uri; Lit " failed with code ";
                 VInt (status_code response); Lit ", text = "; VStr (text response)] ;;;
      ret false
    else
      log INFO [Lit "REST upload for "; VStr uri; Lit " succeesful"] ;;;
      ret true.

Definition index_request_body (document : pyval) : pyval :=
  PDict [ ("customer_id", PStr (customer_id self));
          ("corpus_id", PInt (corpus_id self));
          ("document", document) ].

Definition index_request (data : string) : Request :=
  mkRequest ("https://" ++ endpoint self ++ "/v1/index")%string (Data data) post_headers.

(** [document['documentId']] *)
Definition documentId (document : pyval) : M World pyval :=
  lift (getitem document "documentId").

Definition _index_document (document : pyval) : M World bool :=
  enter (C__index_document document) ;;;
  let request := index_request_body document in
  sent <- try_except
    (data <- lift (json_dumps env request) ;; ret (Some data))
    (fun e =>
       log INFO [Lit "Can't serialize request "; VVal request; Lit ", skipping"] ;;;
       ret None) ;;
  match sent with
  | None => ret false
  | Some data =>
    answer <- try_except
      (response <- post (index_request data) ;; ret (Some response))
      (fun e =>
         id <- documentId document ;;
         log INFO [Lit "Exception "; VExn e; Lit " while indexing document "; VVal id] ;;;
         ret None) ;;
    match answer with
    | None => ret false
    | Some response =>
      if negb (status_code response =? 200) then
        log ERROR [Lit "REST upload failed with code "; VInt (status_code response);
                   Lit ", reason "; VStr (reason response);
                   Lit ", text "; VStr (text response)] ;;;
        ret false
      else
        result <- lift (json response) ;;
        existing <- lift (with_status result says_already_exists) ;;
        if existing then
          if reindex self then
            id <- documentId document ;;
            log INFO [Lit "Document "; VVal id; Lit " already exists, re-indexing"] ;;;
            id' <- documentId document ;;
            delete_doc id' ;;;
            data' <- lift (json_dumps env request) ;;
            post (index_request data') ;;;
            ret true
          else
            id <- documentId document ;;
            log INFO [Lit "Document "; VVal id; Lit " already exists, skipping"] ;;;
            ret false
        else
          ok <- lift (with_status result says_ok) ;;
          if ok then ret true
          else
            id <- documentId document ;;
            log INFO [Lit "Indexing document "; VVal id; Lit " failed, response = "; VVal result] ;;;
            ret false
    end
  end.


Definition pdf_title (elements : list Element) : string :=
  let titles := map el_text
    (filter (fun x => is_Title x && (10 <? len (el_text x))%nat) elements) in
  match titles with
  | t :: _ => t
  | [] => "unknown"
  end.

(** The [if] clause of the comprehension at lines 268-269. *)
Definition pdf_selected (tables_only : bool) (t : Element) : bool :=
  (tables_only && is_Table t) || (negb tables_only && negb (is_Title t)).

(** The expression of the comprehension at lines 265-266. *)
Definition pdf_text (t : Element) : M World string :=
  if is_Table t && summarize_tables self then
    io (IoSummarize (el_text t)) (fun h => summarize_table_text env h (el_text t))
  else ret (el_text t).

Definition _parse_pdf_file (filename : string) (tables_only : bool)
  : M World (string * list string) :=
  enter (C__parse_pdf_file filename tables_only) ;;;
  elements <- io (IoPartitionPdf filename) (fun h => partition_pdf env h filename) ;;
  let title := pdf_title elements in
  let key := vectara_openai_api_key (cfg self) in
  io (IoNewSummarizer key) (fun h => new_TableSummarizer env h key) ;;;
  texts <- mapM pdf_text (filter (pdf_selected tables_only) elements) ;;
  ret (title, texts).

(** Lines 344-355 of [index_segments]: the document dictionary. *)
Definition default_titles (texts : list string) : list string :=
  map (fun _ => "") texts.
Definition default_metadatas (texts : list string) : list pyval :=
  map (fun _ => PDict []) texts.

Fixpoint zip3 {A B C} (la : list A) (lb : list B) (lc : list C) : list (A * B * C) :=
  match la, lb, lc with
  | a :: la', b :: lb', c :: lc' => (a, b, c) :: zip3 la' lb' lc'
  | _, _, _ => []
  end.

Definition section_of (tmd : string * string * pyval) : Result pyval :=
  let '(text, title, md) := tmd in
  rbind (json_dumps env md) (fun mdj =>
  Ret (PDict [ ("text", PStr text); ("title", PStr title); ("metadataJson", PStr mdj) ])).

Definition build_document (doc_id : string) (texts : list string)
    (titles : option (list string)) (metadatas : option (list pyval))
    (doc_metadata : pyval) (doc_title : option string) : Result pyval :=
  let titles := match titles with Some l => l | None => default_titles texts end in
  let metadatas := match metadatas with Some l => l | None => default_metadatas texts end in
  let d_id := [ ("documentId", PStr doc_id) ] in
  let d_title :=
    match doc_title with
    | Some t => if (0 <? String.length t)%nat then [ ("title", PStr t) ] else []
    | None => []
    end in
  rbind (rmap section_of (zip3 texts titles metadatas)) (fun sections =>
  let d_section := [ ("section", PList sections) ] in
  if truthy doc_metadata then
    rbind (json_dumps env doc_metadata) (fun mdj =>
    Ret (PDict (d_id ++ d_title ++ d_section ++ [ ("metadataJson", PStr mdj) ])))
  else Ret (PDict (d_id ++ d_title ++ d_section))).

Definition index_document (document : pyval) : M World bool :=
  enter (C_index_document document) ;;;
  _index_document document.

Definition index_segments (doc_id : string) (texts : list string)
    (titles : option (list string)) (metadatas : option (list pyval))
    (doc_metadata : pyval) (doc_title : option string) : M World bool :=
  enter (C_index_segments doc_id texts titles metadatas doc_metadata doc_title) ;;;
  document <- lift (build_document doc_id texts titles metadatas doc_metadata doc_title) ;;
  index_document document.

Definition file_size (filename : string) : M World Q :=
  fun w => (get_file_size_in_MB env (history w) filename, w).

Definition index_file (filename uri : string) (metadata : pyval) : M World bool :=
  enter (C_index_file filename uri metadata) ;;;
  present <- peek (fun h => path_exists env h filename) ;;
  if negb present then
    log ERROR [Lit "File "; VStr filename; Lit " does not exist"] ;;;
    ret false
  else
    big <- (if endswith filename ".pdf"
            then size <- file_size filename ;; ret (Qle_bool 50 size)
            else ret false) ;;
    if big then
      tt' <- _parse_pdf_file filename false ;;
      let '(title, texts) := tt' in
      succeeded <- index_segments (slugify env filename) texts None None metadata (Some title) ;;
      log INFO [Lit "For file "; VStr filename;
                Lit ", indexing text only since file size is larger than 50MB"] ;;;
      ret succeeded
    else
      stop <- (if summarize_tables self && endswith filename ".pdf" then
                 try_except
                   (tt' <- _parse_pdf_file filename true ;;
                    index_segments (slugify env (filename ++ "_tables")%string) (snd tt')
                      None None metadata (Some ("Tables for " ++ filename)%string) ;;;
                    ret false)
                   (fun e =>
                      log INFO [Lit "Failed to index "; VStr filename; Lit " with error ";
                                VExn e; Lit ", skipping..."] ;;;
                      ret true)
               else ret false) ;;
      if stop then ret false
      else _index_file filename uri metadata.

(** *** Browser *)

Definition pw (op : BrowserOp) : M World unit :=
  io (IoBrowser op) (fun h => pw_call env h op).

(** [try: page.goto(url, wait_until="domcontentloaded")  except Exception: pass],
    observed through the download listener. *)
Definition goto_watching_download (url : string) : M World bool :=
  fun w => (Ret (fst (pw_goto env (history w) url)),
            record (IoBrowser (Goto url None (Some "domcontentloaded"))) w).

Definition url_triggers_download (url : string) : M World bool :=
  enter (C_url_triggers_download url) ;;;
  pw NewContext ;;;
  pw NewPage ;;;
  pw SetExtraHttpHeaders ;;;
  pw OnDownload ;;;
  download_triggered <- goto_watching_download url ;;
  pw ClosePage ;;;
  pw CloseContext ;;;
  ret download_triggered.

(** Local variables of [fetch_page_contents] that outlive its [try]. *)
Record FetchLocals : Type := mkFetchLocals {
  fl_page : bool;                 (* [page] is set *)
  fl_context : bool;              (* [context] is set *)
  fl_content : option string;
  fl_out_url : string;
  fl_links : list string
}.

Definition on_world {L A} (m : M World A) : M (World * L) A :=
  fun s => let (r, w') := m (fst s) in (r, (w', snd s)).
Definition assign {L} (f : L -> L) : M (World * L) unit :=
  fun s => (Ret tt, (fst s, f (snd s))).
Definition locals {L} : M (World * L) L :=
  fun s => (Ret (snd s), s).

Definition goto_with_timeout (url : string) : M World unit :=
  fun w => (snd (pw_goto env (history w) url),
            record (IoBrowser (Goto url (Some (timeout self * 1000)) None)) w).

Definition kept_hrefs (hrefs : list (option string)) : list string :=
  flat_map (fun h => match h with
                     | Some s => if (s =? "")%string then [] else [s]
                     | None => []
                     end) hrefs.

Definition fetch_try (url : string) (debug : bool) : M (World * FetchLocals) unit :=
  on_world (pw NewContext) ;;;
  assign (fun l => mkFetchLocals (fl_page l) true (fl_content l) (fl_out_url l) (fl_links l)) ;;;
  on_world (pw NewPage) ;;;
  assign (fun l => mkFetchLocals true (fl_context l) (fl_content l) (fl_out_url l) (fl_links l)) ;;;
  on_world (pw SetExtraHttpHeaders) ;;;
  on_world (pw RouteImages) ;;;
  (if debug then on_world (pw OnConsole) else ret tt) ;;;
  on_world (goto_with_timeout url) ;;;
  content <- on_world (io (IoBrowser PageContent) (pw_content env)) ;;
  assign (fun l => mkFetchLocals (fl_page l) (fl_context l) content (fl_out_url l) (fl_links l)) ;;;
  out_url <- on_world (io (IoBrowser PageUrl) (pw_url env)) ;;
  assign (fun l => mkFetchLocals (fl_page l) (fl_context l) (fl_content l) out_url (fl_links l)) ;;;
  hrefs <- on_world (io (IoBrowser QueryLinks) (pw_links env)) ;;
  assign (fun l => mkFetchLocals (fl_page l) (fl_context l) (fl_content l) (fl_out_url l)
                     (kept_hrefs hrefs)).

Definition fetch_except (url : string) (e : exn) : M (World * FetchLocals) unit :=
  match e with
  | PlaywrightTimeoutError =>
      on_world (log INFO [Lit "Page loading timed out for "; VStr url])
  | _ =>
      on_world (log INFO [Lit "Page loading failed for "; VStr url;
                          Lit " with exception '"; VExn e; Lit "'"]) ;;;
      connected <- on_world (io (IoBrowser IsConnected) (pw_is_connected env)) ;;
      if negb connected then on_world (pw LaunchFirefox) else ret tt
  end.

Definition fetch_finally : M (World * FetchLocals) unit :=
  l <- locals ;;
  (if fl_page l then on_world (pw ClosePage) else ret tt) ;;;
  (if fl_context l then on_world (pw CloseContext) else ret tt).

Definition fetch_page_contents (url : string) (debug : bool)
  : M World (option string * string * list string) :=
  enter (C_fetch_page_contents url) ;;;
  fun w =>
    let start := mkFetchLocals false false (Some "") url [] in
    match try_finally (try_except (fetch_try url debug) (fetch_except url))
                      fetch_finally (w, start) with
    | (Ret _, (w', l)) => (Ret (fl_content l, fl_out_url l, fl_links l), w')
    | (Raise e, (w', _)) => (Raise e, w')
    end.

(** *** [index_url] *)

(** What a branch of [index_url] leaves behind: an early [return], or the
    values of [url], [parts] and [extracted_title] for lines 334-337. *)
Inductive Branch : Type :=
| Return (b : bool)
| Extracted (url : string) (parts : list string) (extracted_title : option string).

Definition tmpfile : string := "tmpfile".

(** Lines 287-295. *)
Definition download (url : string) : M World bool :=
  response <- io (IoGet url) (fun h => session_get env h url) ;;
  let '(status, body) := response in
  if status =? 200 then
    match body with
    | Ret chunks =>
        io (IoWriteFile tmpfile chunks) (fun h => write_file env h tmpfile chunks)
    | Raise e =>
        io (IoWriteFile tmpfile []) (fun _ => Raise e)
    end ;;;
    log INFO [Lit "File downloaded successfully and saved as "; VStr tmpfile] ;;;
    ret true
  else
    log INFO [Lit "Failed to download file. Status code: "; VInt status] ;;;
    ret false.

(** Lines 302-313; the local [content] is only ever assigned in the
    other branch of line 285, so reading it here raises. *)
Definition parse_markup (url : string) : M World Branch :=
  content <- raise (A:=string) UnboundLocalError ;;
  let dl_content := content in
  html_content <-
    (if endswith url "rst" then lift (publish_string_html env dl_content)
     else if endswith url "md" then lift (markdown_markdown env dl_content)
     else if endswith (lower url) "ipynb" then lift (notebook_to_html env dl_content)
     else raise UnboundLocalError) ;;
  extracted_title <- lift (index_last (split "/" url)) ;;
  text <- lift (html_to_text env html_content (remove_code self)) ;;
  ret (Extracted url [text] (Some extracted_title)).

(** Lines 297-313. *)
Definition parse_download (url : string) : M World Branch :=
  if endswith url ".pdf" then
    tt' <- _parse_pdf_file tmpfile false ;;
    ret (Extracted url (snd tt') (Some (fst tt')))
  else if endswith url ".md" || endswith url ".rst" || endswith (lower url) ".ipynb" then
    parse_markup url
  else
    (* no branch assigns [parts]: line 335 reads an unbound local *)
    raise UnboundLocalError.

(** [m] run with a local variable that starts as [l]. *)
Definition with_local {L A} (l : L) (m : M (World * L) A) : M World A :=
  fun w => let (r, s) := m (w, l) in (r, fst s).

(** Lines 317-328, the body of the [try].  The local variable of the
    state is [url], which line 325 rebinds to the resolved URL. *)
Definition crawl : M (World * string) Branch :=
  url <- locals ;;
  fetched <- on_world (fetch_page_contents url false) ;;
  let '(content, actual_url, _) := fetched in
  match content with
  | None => ret (Return false)
  | Some content =>
    if (len content <? 3)%nat then ret (Return false)
    else
      known <- on_world get_detected_language ;;
      language <-
        match known with
        | Some l => ret l
        | None =>
            body_text <- lift (soup_body_text env content) ;;
            l <- lift (detect_language env body_text) ;;
            on_world (set_detected_language l) ;;;
            on_world (log INFO [Lit "The detected language is "; VStr l]) ;;;
            ret l
        end ;;
      assign (fun _ => actual_url) ;;;
      url <- locals ;;
      te <- lift (get_content_and_title env content url language (remove_code self)) ;;
      on_world (log INFO [Lit "retrieving content took "; Lit " seconds"]) ;;;
      ret (Extracted url [fst te] (snd te))
  end.

(** Lines 329-332, the handler: it logs [url] as it is when the exception
    arrives. *)
Definition crawl_failed (e : exn) : M (World * string) Branch :=
  url <- locals ;;
  on_world (log INFO [Lit "Failed to crawl "; VStr url; Lit ", skipping due to error ";
                      VExn e; Lit ", traceback="]) ;;;
  ret (Return false).

Definition index_url (url : string) (metadata : pyval) : M World bool :=
  enter (C_index_url url metadata) ;;;
  url <- lift (index_nat (split "#" url) 0) ;;
  triggers <- url_triggers_download url ;;
  branch <-
    (if triggers then
       saved <- download url ;;
       if saved then parse_download url else ret (Return false)
     else
       with_local url (try_except crawl crawl_failed)) ;;
  match branch with
  | Return b => ret b
  | Extracted url parts extracted_title =>
      let doc_id := slugify env url in
      index_segments doc_id parts None None metadata extracted_title
  end.

End Methods.

(** * Vocabulary of the properties and scripted collaborators *)

Definition add_invoked (cs : list Call) (w : World) : World :=
  mkWorld (history w) (invoked w ++ cs) (logs w) (detected_language w).
Definition add_logs (ls : list LogRec) (w : World) : World :=
  mkWorld (history w) (invoked w) (logs w ++ ls) (detected_language w).

(** A world with nothing in it, and collaborators that always answer the
    same way, to build concrete runs from. *)
Definition empty_world : World := mkWorld [] [] [] None.

Definition ok_response (st : Z) (body : Result pyval) : Response :=
  mkResponse st "" "" body.

(** Collaborators that always answer the same way: [posts] and [dumps]
    stand for the session and the serializer; local files have [size]
    megabytes and partition into [elements]; navigation fires a download
    event or not, and a rendered page has [content]. *)
Definition scripted_env (posts : History -> Request -> Result Response)
    (dumps : pyval -> Result string) (size : Q) (elements : list Element)
    (download : bool) (content : option string) : Env :=
  mkEnv posts
    (fun _ _ => Ret (200, Ret []))
    (fun _ _ => true)
    (fun _ _ => Ret tt)
    (fun _ _ _ => Ret tt)
    (fun _ _ => Ret size)
    (fun _ _ => Ret tt)
    (fun _ _ => (download, Ret tt))
    (fun _ => Ret content)
    (fun _ => Ret "http://resolved.example/")
    (fun _ => Ret [])
    (fun _ => Ret true)
    (fun _ _ => Ret elements)
    (fun _ _ => Ret tt)
    (fun _ s => Ret s)
    (fun s => s)
    dumps
    (fun s => Ret s)
    (fun _ => Ret "en")
    (fun c _ _ _ => Ret (c, None))
    (fun s _ => Ret s)
    (fun s => Ret s)
    (fun s => Ret s)
    (fun s => Ret s).

Definition quiet_env (posts : History -> Request -> Result Response)
    (dumps : pyval -> Result string) : Env :=
  scripted_env posts dumps (1 # 1)%Q [] false (Some "").

Definition demo_indexer (reindex summarize : bool) : Indexer :=
  mkIndexer (mkCfg None (Some summarize) (Some "key")) "api.example" "c1" 7 "k" reindex true 60 summarize.

(** The body of an index answer: a dictionary whose ["status"] is a
    dictionary with a ["code"] string. *)
Definition status_body (code : string) (extra : list (string * pyval)) : pyval :=
  PDict [ ("status", PDict (("code", PStr code) :: extra)) ].

(** The condition of lines 238-240, as the answers of the service meet it. *)
Definition already_exists_body (result : pyval) : Prop :=
  exists d st code,
    result = PDict d /\
    lookup "status" d = Some (PDict st) /\
    lookup "code" st = Some (PStr code) /\
    (str_in "ALREADY_EXISTS" code = true \/
     (str_in "CONFLICT" code = true /\
      exists detail, lookup "statusDetail" st = Some (PStr detail) /\
                     str_in updates_unsupported detail = true)).

(** A service that answers every index request with [answer] and every
    other request with a plain 200. *)
Definition index_answers (self : Indexer) (answer : Response) : Env :=
  quiet_env
    (fun _ rq => if (rq_url rq =? "https://" ++ endpoint self ++ "/v1/index")%string
                 then Ret answer
                 else Ret (ok_response 200 (Ret (PDict []))))
    (fun _ => Ret "{}").

Definition demo_document : pyval :=
  PDict [ ("documentId", PStr "doc-1"); ("section", PList []) ].

(** A service that answers the first upload of a file with a conflict
    naming the document ['abc'], and anything else with [second]. *)
Definition conflict_details : pyval :=
  PDict [ ("details", PStr "Document with document id 'abc' already exists") ].


Definition long_title (e : Element) : bool :=
  is_Title e && (10 <? len (el_text e))%nat.

(** [title] is the text of the first element that is a [Title] longer than
    ten characters ([len], not bytes), or ["unknown"] when there is none. *)
Definition first_long_title (elements : list Element) (title : string) : Prop :=
  (exists before e after,
      elements = before ++ e :: after /\
      el_type e = Title /\ (10 < len (el_text e))%nat /\
      title = el_text e /\
      forall x, In x before -> long_title x = false) \/
  (title = "unknown" /\ forall x, In x elements -> long_title x = false).

(** How a selected element turns into a segment text. *)
Definition text_of (env : Env) (self : Indexer) (e : Element) (t : string) : Prop :=
  if is_Table e && summarize_tables self
  then exists h, summarize_table_text env h (el_text e) = Ret t
  else t = el_text e.

(** The elements kept as segments: the tables in tables-only mode, all
    elements but the titles otherwise. *)
Definition segments_of (tables_only : bool) (elements : list Element) : list Element :=
  if tables_only then filter is_Table elements
  else filter (fun e => negb (is_Title e)) elements.

Definition demo_elements : list Element :=
  [ mkElement Title "Short";
    mkElement NarrativeText "Preface";
    mkElement Title "A long enough title";
    mkElement Table "a | b";
    mkElement Title "Another long title";
    mkElement ListItem "item" ].

Definition pdf_env (size : Q) (posts : History -> Request -> Result Response) : Env :=
  scripted_env posts (fun _ => Ret "{}") size demo_elements false (Some "").

Definition always (st : Z) (body : pyval) : History -> Request -> Result Response :=
  fun _ _ => Ret (ok_response st (Ret body)).

(** A section with the default title and the default (empty) metadata. *)
Definition default_section (empty_md : string) (text : string) : pyval :=
  PDict [ ("text", PStr text); ("title", PStr ""); ("metadataJson", PStr empty_md) ].

(** [m] enters no method: it leaves the list of invocations as it is,
    however it ends. *)
Definition quiet {S A} (see : S -> list Call) (m : M S A) : Prop :=
  forall s r s', m s = (r, s') -> see s' = see s.

Definition page_env (content : option string) : Env :=
  scripted_env (always 200 (status_body "OK" [])) (fun _ => Ret "{}") (1 # 1) []
               false content.

(** [m] enters only methods in [P]: whatever it appends to the list of
    invocations satisfies [P]. *)
Definition enters_only {A} (P : Call -> Prop) (m : M World A) : Prop :=
  forall w r w', m w = (r, w') -> exists cs, invoked w' = invoked w ++ cs /\ Forall P cs.

(** The methods below [index_document]. *)
Definition indexing_call (c : Call) : Prop :=
  match c with
  | C_index_document _ | C__index_document _ | C_delete_doc _ => True
  | _ => False
  end.

Definition failed_to_index (filename : string) (e : exn) : list LogRec :=
  [(INFO, [Lit "Failed to index "; VStr filename; Lit " with error "; VExn e;
           Lit ", skipping..."])].

(** A service that rejects every index request with status 500 and
    accepts every other request. *)
Definition index_rejected : History -> Request -> Result Response :=
  fun _ rq => if str_in "/v1/index" (rq_url rq)
              then Ret (ok_response 500 (Raise JSONDecodeError))
              else Ret (ok_response 200 (Ret (PDict []))).

(** A site whose URLs all start a download that succeeds. *)
Definition download_env : Env :=
  scripted_env (always 200 (status_body "OK" [])) (fun _ => Ret "{}") (1 # 1) demo_elements
               true (Some "").

(** ** More scripted collaborators *)

(** [e] with one collaborator replaced. *)
Definition set_path_exists (f : History -> string -> bool) (e : Env) : Env :=
  mkEnv (session_post e) (session_get e) f (open_rb e) (write_file e)
    (get_file_size_in_MB e) (pw_call e) (pw_goto e) (pw_content e) (pw_url e) (pw_links e)
    (pw_is_connected e) (partition_pdf e) (new_TableSummarizer e) (summarize_table_text e)
    (slugify e) (json_dumps e) (soup_body_text e) (detect_language e)
    (get_content_and_title e) (html_to_text e) (publish_string_html e)
    (markdown_markdown e) (notebook_to_html e).

Definition set_session_get (f : History -> string -> Result (Z * Result (list string)))
    (e : Env) : Env :=
  mkEnv (session_post e) f (path_exists e) (open_rb e) (write_file e)
    (get_file_size_in_MB e) (pw_call e) (pw_goto e) (pw_content e) (pw_url e) (pw_links e)
    (pw_is_connected e) (partition_pdf e) (new_TableSummarizer e) (summarize_table_text e)
    (slugify e) (json_dumps e) (soup_body_text e) (detect_language e)
    (get_content_and_title e) (html_to_text e) (publish_string_html e)
    (markdown_markdown e) (notebook_to_html e).

Definition set_pw_goto (f : History -> string -> bool * Result unit) (e : Env) : Env :=
  mkEnv (session_post e) (session_get e) (path_exists e) (open_rb e) (write_file e)
    (get_file_size_in_MB e) (pw_call e) f (pw_content e) (pw_url e) (pw_links e)
    (pw_is_connected e) (partition_pdf e) (new_TableSummarizer e) (summarize_table_text e)
    (slugify e) (json_dumps e) (soup_body_text e) (detect_language e)
    (get_content_and_title e) (html_to_text e) (publish_string_html e)
    (markdown_markdown e) (notebook_to_html e).

Definition set_pw_links (f : History -> Result (list (option string))) (e : Env) : Env :=
  mkEnv (session_post e) (session_get e) (path_exists e) (open_rb e) (write_file e)
    (get_file_size_in_MB e) (pw_call e) (pw_goto e) (pw_content e) (pw_url e) f
    (pw_is_connected e) (partition_pdf e) (new_TableSummarizer e) (summarize_table_text e)
    (slugify e) (json_dumps e) (soup_body_text e) (detect_language e)
    (get_content_and_title e) (html_to_text e) (publish_string_html e)
    (markdown_markdown e) (notebook_to_html e).


Definition set_soup_body_text (f : string -> Result string) (e : Env) : Env :=
  mkEnv (session_post e) (session_get e) (path_exists e) (open_rb e) (write_file e)
    (get_file_size_in_MB e) (pw_call e) (pw_goto e) (pw_content e) (pw_url e) (pw_links e)
    (pw_is_connected e) (partition_pdf e) (new_TableSummarizer e) (summarize_table_text e)
    (slugify e) (json_dumps e) f (detect_language e)
    (get_content_and_title e) (html_to_text e) (publish_string_html e)
    (markdown_markdown e) (notebook_to_html e).

(** The error logged for a file that is not there (lines 165 and 376). *)
Definition file_missing (filename : string) : list LogRec :=
  [(ERROR, [Lit "File "; VStr filename; Lit " does not exist"])].


(** One entry of the ["section"] list (line 353). *)
Definition section_entry (text title mdj : string) : pyval :=
  PDict [ ("text", PStr text); ("title", PStr title); ("metadataJson", PStr mdj) ].

Definition set_pw_is_connected (f : History -> Result bool) (e : Env) : Env :=
  mkEnv (session_post e) (session_get e) (path_exists e) (open_rb e) (write_file e)
    (get_file_size_in_MB e) (pw_call e) (pw_goto e) (pw_content e) (pw_url e) (pw_links e)
    f (partition_pdf e) (new_TableSummarizer e) (summarize_table_text e)
    (slugify e) (json_dumps e) (soup_body_text e) (detect_language e)
    (get_content_and_title e) (html_to_text e) (publish_string_html e)
    (markdown_markdown e) (notebook_to_html e).

Definition set_pw_call (f : History -> BrowserOp -> Result unit) (e : Env) : Env :=
  mkEnv (session_post e) (session_get e) (path_exists e) (open_rb e) (write_file e)
    (get_file_size_in_MB e) f (pw_goto e) (pw_content e) (pw_url e) (pw_links e)
    (pw_is_connected e) (partition_pdf e) (new_TableSummarizer e) (summarize_table_text e)
    (slugify e) (json_dumps e) (soup_body_text e) (detect_language e)
    (get_content_and_title e) (html_to_text e) (publish_string_html e)
    (markdown_markdown e) (notebook_to_html e).

(** [m] keeps [P]: from a state in [P] it ends in a state in [P], however
    it ends. *)
Definition keeps {S A} (P : S -> Prop) (m : M S A) : Prop :=
  forall s r s', P s -> m s = (r, s') -> P s'.

(** The local [context] of [fetch_page_contents] is set. *)
Definition context_set (s : World * FetchLocals) : Prop := fl_context (snd s) = true.

(** The records logged by [index_url] (lines 331, 294 and 328). *)
Definition failed_to_crawl (url : string) (e : exn) : list LogRec :=
  [(INFO, [Lit "Failed to crawl "; VStr url; Lit ", skipping due to error ";
           VExn e; Lit ", traceback="])].
Definition failed_to_download (status : Z) : list LogRec :=
  [(INFO, [Lit "Failed to download file. Status code: "; VInt status])].
Definition retrieved : list LogRec :=
  [(INFO, [Lit "retrieving content took "; Lit " seconds"])].

(** The summarizer calls of a parse that keeps the elements [kept]
    (lines 264-270). *)
Definition summarize_calls (self : Indexer) (kept : list Element) : list IO :=
  if summarize_tables self
  then map (fun e => IoSummarize (el_text e)) (filter is_Table kept)
  else [].

Definition set_new_TableSummarizer (f : History -> option string -> Result unit)
    (e : Env) : Env :=
  mkEnv (session_post e) (session_get e) (path_exists e) (open_rb e) (write_file e)
    (get_file_size_in_MB e) (pw_call e) (pw_goto e) (pw_content e) (pw_url e) (pw_links e)
    (pw_is_connected e) (partition_pdf e) f (summarize_table_text e)
    (slugify e) (json_dumps e) (soup_body_text e) (detect_language e)
    (get_content_and_title e) (html_to_text e) (publish_string_html e)
    (markdown_markdown e) (notebook_to_html e).

Definition set_get_file_size_in_MB (f : History -> string -> Result Q) (e : Env) : Env :=
  mkEnv (session_post e) (session_get e) (path_exists e) (open_rb e) (write_file e)
    f (pw_call e) (pw_goto e) (pw_content e) (pw_url e) (pw_links e)
    (pw_is_connected e) (partition_pdf e) (new_TableSummarizer e) (summarize_table_text e)
    (slugify e) (json_dumps e) (soup_body_text e) (detect_language e)
    (get_content_and_title e) (html_to_text e) (publish_string_html e)
    (markdown_markdown e) (notebook_to_html e).

(** * Properties *)

(** ** String helpers on concrete inputs *)

Example split_ex1 : split "document id" "x document id 'abc' y" = ["x "; " 'abc' y"].
Proof. reflexivity. Qed.
Example split_ex2 : split "#" "http://a/b#frag#g" = ["http://a/b"; "frag"; "g"].
Proof. reflexivity. Qed.
Example split_ex3 : split "ab" "abab" = [""; ""; ""].
Proof. reflexivity. Qed.
Example endswith_ex : endswith "a.pdf" ".pdf" = true /\ endswith "pdf" ".pdf" = false.
Proof. split; reflexivity. Qed.
Example str_of_Z_ex : str_of_Z 42 = "42" /\ str_of_Z 0 = "0" /\ str_of_Z (-7) = "-7".
Proof. repeat split; reflexivity. Qed.
Example str_in_ex : str_in "OK" "BROKEN" = true /\ str_in "OK" "INVALID" = false.
Proof. split; reflexivity. Qed.

(** ** Proof support *)

Ltac run :=
  unfold bind, ret, lift, enter, log, peek, io, post, record, try_except; simpl.

(** ** [delete_doc] *)

Lemma delete_doc_run :
  forall env self doc_id w data response,
    json_dumps env (delete_body self doc_id) = Ret data ->
    session_post env (history w) (delete_request self data) = Ret response ->
    delete_doc env self doc_id w =
      (Ret (status_code response =? 200),
       mkWorld (history w ++ [IoPost (delete_request self data)])
               (invoked w ++ [C_delete_doc doc_id])
               (if status_code response =? 200 then logs w
                else logs w ++
                  [(ERROR, [Lit "Delete request failed for doc_id = "; VVal doc_id;
                            Lit " with status code "; VInt (status_code response);
                            Lit ", reason "; VStr (reason response);
                            Lit ", text "; VStr (text response)])])
               (detected_language w)).
Proof.
  intros env self doc_id w data response Hd Hp.
  unfold delete_doc. run. rewrite Hd. simpl. rewrite Hp.
  destruct (status_code response =? 200); reflexivity.
Qed.

(** C10. [delete_doc] sends one request to the delete endpoint and returns
    [True] exactly when the answer has status 200; for any other status it
    logs the status, reason and text and returns [False].  Nothing else is
    sent and the body of the answer is not looked at. *)
Theorem delete_doc_status :
  forall env self doc_id w data response,
    json_dumps env (delete_body self doc_id) = Ret data ->
    session_post env (history w) (delete_request self data) = Ret response ->
    delete_doc env self doc_id w =
      (Ret (status_code response =? 200),
       mkWorld (history w ++ [IoPost (delete_request self data)])
               (invoked w ++ [C_delete_doc doc_id])
               (if status_code response =? 200 then logs w
                else logs w ++
                  [(ERROR, [Lit "Delete request failed for doc_id = "; VVal doc_id;
                            Lit " with status code "; VInt (status_code response);
                            Lit ", reason "; VStr (reason response);
                            Lit ", text "; VStr (text response)])])
               (detected_language w)).
Proof.
  exact delete_doc_run.
Qed.

Lemma delete_doc_status_witness :
  delete_doc (quiet_env (fun _ _ => Ret (ok_response 404 (Raise JSONDecodeError))) (fun _ => Ret "{}"))
             (demo_indexer true false) (PStr "doc-1") empty_world
  = (Ret false,
     mkWorld [IoPost (delete_request (demo_indexer true false) "{}")]
             [C_delete_doc (PStr "doc-1")]
             [(ERROR, [Lit "Delete request failed for doc_id = "; VVal (PStr "doc-1");
                       Lit " with status code "; VInt 404;
                       Lit ", reason "; VStr ""; Lit ", text "; VStr ""])]
             None).
Proof.
  exact (delete_doc_status
           (quiet_env (fun _ _ => Ret (ok_response 404 (Raise JSONDecodeError))) (fun _ => Ret "{}"))
           (demo_indexer true false) (PStr "doc-1") empty_world "{}"
           (ok_response 404 (Raise JSONDecodeError)) eq_refl eq_refl).
Defined.

(** ** [_index_document] *)

Arguments truthy : simpl never.

Lemma lookup_some_truthy :
  forall k st v, lookup k st = Some v -> truthy (PDict st) = true.
Proof. intros k [|p st] v H; [discriminate | reflexivity]. Qed.

Lemma with_status_already_exists :
  forall d st code,
    lookup "status" d = Some (PDict st) ->
    lookup "code" st = Some (PStr code) ->
    str_in "ALREADY_EXISTS" code = true ->
    with_status (PDict d) says_already_exists = Ret true.
Proof.
  intros d st code Hs Hc Ha.
  unfold with_status, says_already_exists; simpl.
  rewrite Hs; simpl. rewrite (lookup_some_truthy _ _ _ Hc); simpl.
  rewrite Hc; simpl. rewrite Ha. reflexivity.
Qed.

Lemma with_status_conflict :
  forall d st code detail,
    lookup "status" d = Some (PDict st) ->
    lookup "code" st = Some (PStr code) ->
    str_in "CONFLICT" code = true ->
    lookup "statusDetail" st = Some (PStr detail) ->
    str_in updates_unsupported detail = true ->
    with_status (PDict d) says_already_exists = Ret true.
Proof.
  intros d st code detail Hs Hc Hk Hd Hu.
  unfold with_status, says_already_exists; simpl.
  rewrite Hs; simpl. rewrite (lookup_some_truthy _ _ _ Hc); simpl.
  rewrite Hc; simpl. destruct (str_in "ALREADY_EXISTS" code); [reflexivity|].
  simpl. rewrite Hk; simpl. rewrite Hd; simpl. rewrite Hu. reflexivity.
Qed.

Lemma already_exists_body_test :
  forall result, already_exists_body result ->
                 with_status result says_already_exists = Ret true.
Proof.
  intros result (d & st & code & -> & Hs & Hc & [Ha | (Hk & detail & Hd & Hu)]).
  - eapply with_status_already_exists; eauto.
  - eapply with_status_conflict; eauto.
Qed.

(** The run of [_index_document] up to the answer of the first POST. *)
Lemma _index_document_answered :
  forall env self document w data response,
    json_dumps env (index_request_body self document) = Ret data ->
    session_post env (history w) (index_request self data) = Ret response ->
    _index_document env self document w =
      let w1 := mkWorld (history w ++ [IoPost (index_request self data)])
                        (invoked w ++ [C__index_document document]) (logs w)
                        (detected_language w) in
      if negb (status_code response =? 200) then
        (Ret false,
         add_logs [(ERROR, [Lit "REST upload failed with code "; VInt (status_code response);
                            Lit ", reason "; VStr (reason response);
                            Lit ", text "; VStr (text response)])] w1)
      else
        (result <- lift (json response) ;;
         existing <- lift (with_status result says_already_exists) ;;
         if existing then
           if reindex self then
             id <- documentId document ;;
             log INFO [Lit "Document "; VVal id; Lit " already exists, re-indexing"] ;;;
             id' <- documentId document ;;
             delete_doc env self id' ;;;
             data' <- lift (json_dumps env (index_request_body self document)) ;;
             post env (index_request self data') ;;;
             ret true
           else
             id <- documentId document ;;
             log INFO [Lit "Document "; VVal id; Lit " already exists, skipping"] ;;;
             ret false
         else
           ok <- lift (with_status result says_ok) ;;
           if ok then ret true
           else
             id <- documentId document ;;
             log INFO [Lit "Indexing document "; VVal id; Lit " failed, response = ";
                       VVal result] ;;;
             ret false) w1.
Proof.
  intros env self document w data response Hd Hp.
  unfold _index_document. run. rewrite Hd. simpl. rewrite Hp. simpl.
  destruct (status_code response =? 200); reflexivity.
Qed.

(** C1 (amended).  When the answer to the index request has status 200 and
    a body that says the document already exists: with [reindex] on,
    [_index_document] sends one delete request for the document id, then
    the identical index request once more, and returns [True] whatever the
    two answers are; with [reindex] off it sends nothing more and returns
    [False]. *)
Theorem index_document_already_exists :
  forall env self document w data response result id,
    json_dumps env (index_request_body self document) = Ret data ->
    session_post env (history w) (index_request self data) = Ret response ->
    status_code response = 200 ->
    json response = Ret result ->
    already_exists_body result ->
    getitem document "documentId" = Ret id ->
    let rq := index_request self data in
    (reindex self = true ->
     forall ddata dresp response',
       json_dumps env (delete_body self id) = Ret ddata ->
       session_post env (history w ++ [IoPost rq]) (delete_request self ddata) = Ret dresp ->
       session_post env (history w ++ [IoPost rq; IoPost (delete_request self ddata)]) rq
         = Ret response' ->
       exists w',
         _index_document env self document w = (Ret true, w') /\
         history w' = history w ++ [IoPost rq; IoPost (delete_request self ddata); IoPost rq] /\
         invoked w' = invoked w ++ [C__index_document document; C_delete_doc id]) /\
    (reindex self = false ->
     exists w',
       _index_document env self document w = (Ret false, w') /\
       history w' = history w ++ [IoPost rq] /\
       invoked w' = invoked w ++ [C__index_document document]).
Proof.
  intros env self document w data response result id Hd Hp Hst Hj Hb Hid rq.
  pose proof (already_exists_body_test _ Hb) as Ht.
  rewrite (_index_document_answered _ _ _ _ _ _ Hd Hp).
  rewrite Hst. cbn zeta. change (negb (200 =? 200)) with false. cbv iota.
  split.
  - intros Hre ddata dresp response' Hdd Hdp Hp'.
    unfold documentId. run. rewrite Hj. simpl. rewrite Ht. simpl. rewrite Hre.
    rewrite Hid. simpl.
    erewrite delete_doc_run by (simpl; eassumption). simpl.
    rewrite Hd. simpl.
    rewrite <- !app_assoc. simpl. fold rq. rewrite Hp'.
    eexists. split; [reflexivity|]. simpl. rewrite <- !app_assoc. simpl. auto.
  - intros Hre.
    unfold documentId. run. rewrite Hj. simpl. rewrite Ht. simpl. rewrite Hre.
    rewrite Hid. simpl. eexists. split; [reflexivity|]. simpl. auto.
Qed.

Lemma already_exists_body_demo : already_exists_body (status_body "ALREADY_EXISTS" []).
Proof.
  exists [("status", PDict [("code", PStr "ALREADY_EXISTS")])],
         [("code", PStr "ALREADY_EXISTS")], "ALREADY_EXISTS".
  repeat split. left. reflexivity.
Defined.

Lemma index_document_already_exists_witness :
  let self := demo_indexer true false in
  let env := index_answers self (ok_response 200 (Ret (status_body "ALREADY_EXISTS" []))) in
  let rq := index_request self "{}" in
  exists w',
    _index_document env self demo_document empty_world = (Ret true, w') /\
    history w' = [IoPost rq; IoPost (delete_request self "{}"); IoPost rq] /\
    invoked w' = [C__index_document demo_document; C_delete_doc (PStr "doc-1")].
Proof.
  intros self env rq.
  exact (proj1
    (index_document_already_exists env self demo_document empty_world "{}"
       (ok_response 200 (Ret (status_body "ALREADY_EXISTS" [])))
       (status_body "ALREADY_EXISTS" []) (PStr "doc-1")
       eq_refl eq_refl eq_refl eq_refl already_exists_body_demo eq_refl)
    eq_refl "{}" (ok_response 200 (Ret (PDict []))) (ok_response 200 (Ret (status_body "ALREADY_EXISTS" [])))
    eq_refl eq_refl eq_refl).
Defined.

(** C1, as stated for every 2xx answer, fails at status 201: the answer
    says the document already exists and [reindex] is on, yet the method
    returns [False] and sends no delete request. *)
Lemma index_document_already_exists_201 :
  let self := demo_indexer true false in
  let answer := ok_response 201 (Ret (status_body "ALREADY_EXISTS" [])) in
  let env := index_answers self answer in
  let rq := index_request self "{}" in
  session_post env [] rq = Ret answer /\
  200 <= status_code answer < 300 /\
  already_exists_body (status_body "ALREADY_EXISTS" []) /\
  reindex self = true /\
  exists w',
    _index_document env self demo_document empty_world = (Ret false, w') /\
    history w' = [IoPost rq] /\
    invoked w' = [C__index_document demo_document].
Proof.
  intros self answer env rq.
  split; [reflexivity|]. split; [simpl; lia|].
  split; [exact already_exists_body_demo|]. split; [reflexivity|].
  eexists. split; [vm_compute; reflexivity|]. split; reflexivity.
Qed.

Lemma with_status_absent :
  forall d test, lookup "status" d = None -> with_status (PDict d) test = Ret false.
Proof. intros d test H. unfold with_status; simpl. rewrite H. reflexivity. Qed.

Lemma with_status_falsy :
  forall d st test,
    lookup "status" d = Some st -> truthy st = false ->
    with_status (PDict d) test = Ret false.
Proof.
  intros d st test H Ht. unfold with_status; simpl. rewrite H. simpl. rewrite Ht.
  reflexivity.
Qed.

Lemma with_status_code :
  forall d st code test,
    lookup "status" d = Some (PDict st) ->
    lookup "code" st = Some (PStr code) ->
    with_status (PDict d) test = test (PDict st).
Proof.
  intros d st code test Hs Hc. unfold with_status; simpl. rewrite Hs. simpl.
  rewrite (lookup_some_truthy _ _ _ Hc). reflexivity.
Qed.

Lemma says_already_exists_no :
  forall st code,
    lookup "code" st = Some (PStr code) ->
    str_in "ALREADY_EXISTS" code = false ->
    str_in "CONFLICT" code = false ->
    says_already_exists (PDict st) = Ret false.
Proof.
  intros st code Hc Ha Hk. unfold says_already_exists; simpl.
  rewrite Hc; simpl. rewrite Ha, Hk. reflexivity.
Qed.

Lemma says_ok_code :
  forall st code,
    lookup "code" st = Some (PStr code) -> says_ok (PDict st) = Ret (str_in "OK" code).
Proof. intros st code Hc. unfold says_ok; simpl. rewrite Hc. reflexivity. Qed.

(** The failed run of line 252-253. *)
Lemma _index_document_unrecognized :
  forall env self document w data response result id,
    json_dumps env (index_request_body self document) = Ret data ->
    session_post env (history w) (index_request self data) = Ret response ->
    status_code response = 200 ->
    json response = Ret result ->
    with_status result says_already_exists = Ret false ->
    with_status result says_ok = Ret false ->
    getitem document "documentId" = Ret id ->
    exists w',
      _index_document env self document w = (Ret false, w') /\
      history w' = history w ++ [IoPost (index_request self data)].
Proof.
  intros env self document w data response result id Hd Hp Hst Hj Ha Ho Hid.
  rewrite (_index_document_answered _ _ _ _ _ _ Hd Hp).
  rewrite Hst. cbn zeta. change (negb (200 =? 200)) with false. cbv iota.
  unfold documentId. run. rewrite Hj. simpl. rewrite Ha. simpl. rewrite Ho. simpl.
  rewrite Hid. simpl. eexists. split; reflexivity.
Qed.

(** C5 (amended).  For a document that carries its id and serializes:
    [_index_document] returns [False] when the POST raises and when the
    answer has a status other than 200; on a 200 answer whose body status
    code is ["OK"] it returns [True]; on a 200 answer whose body has no
    (or an empty) status, or a status code that contains none of
    ["ALREADY_EXISTS"], ["CONFLICT"] and ["OK"], it returns [False].  In
    every one of these cases exactly one request is sent. *)
Theorem index_document_outcomes :
  forall env self document w data id,
    json_dumps env (index_request_body self document) = Ret data ->
    getitem document "documentId" = Ret id ->
    let rq := index_request self data in
    let returns (b : bool) :=
      exists w', _index_document env self document w = (Ret b, w') /\
                 history w' = history w ++ [IoPost rq] in
    (forall e, session_post env (history w) rq = Raise e -> returns false) /\
    (forall response,
        session_post env (history w) rq = Ret response ->
        status_code response <> 200 -> returns false) /\
    (forall response d st,
        session_post env (history w) rq = Ret response ->
        status_code response = 200 ->
        json response = Ret (PDict d) ->
        lookup "status" d = Some (PDict st) ->
        lookup "code" st = Some (PStr "OK") -> returns true) /\
    (forall response d,
        session_post env (history w) rq = Ret response ->
        status_code response = 200 ->
        json response = Ret (PDict d) ->
        (lookup "status" d = None \/
         exists st, lookup "status" d = Some st /\ truthy st = false) ->
        returns false) /\
    (forall response d st code,
        session_post env (history w) rq = Ret response ->
        status_code response = 200 ->
        json response = Ret (PDict d) ->
        lookup "status" d = Some (PDict st) ->
        lookup "code" st = Some (PStr code) ->
        str_in "ALREADY_EXISTS" code = false ->
        str_in "CONFLICT" code = false ->
        str_in "OK" code = false -> returns false).
Proof.
  intros env self document w data id Hd Hid rq returns. subst returns.
  repeat split.
  - intros e He. unfold _index_document, documentId. run. rewrite Hd. simpl.
    fold rq. rewrite He. rewrite Hid. simpl. eexists. split; reflexivity.
  - intros response Hp Hst.
    rewrite (_index_document_answered _ _ _ _ _ _ Hd Hp). cbn zeta.
    apply Z.eqb_neq in Hst. rewrite Hst. simpl. eexists. split; reflexivity.
  - intros response d st Hp Hst Hj Hs Hc.
    rewrite (_index_document_answered _ _ _ _ _ _ Hd Hp).
    rewrite Hst. cbn zeta. change (negb (200 =? 200)) with false. cbv iota.
    run. rewrite Hj. simpl.
    rewrite (with_status_code _ _ _ _ Hs Hc).
    rewrite (says_already_exists_no _ _ Hc eq_refl eq_refl). simpl.
    rewrite (with_status_code _ _ _ _ Hs Hc), (says_ok_code _ _ Hc). simpl.
    eexists. split; reflexivity.
  - intros response d Hp Hst Hj Hno.
    assert (Hw : forall test, with_status (PDict d) test = Ret false).
    { intros test. destruct Hno as [Hn | (st & Hs & Ht)].
      - apply with_status_absent; assumption.
      - eapply with_status_falsy; eassumption. }
    eapply _index_document_unrecognized; eauto.
  - intros response d st code Hp Hst Hj Hs Hc Ha Hk Ho.
    eapply _index_document_unrecognized; eauto.
    + rewrite (with_status_code _ _ _ _ Hs Hc). eapply says_already_exists_no; eauto.
    + rewrite (with_status_code _ _ _ _ Hs Hc), (says_ok_code _ _ Hc), Ho. reflexivity.
Qed.

Lemma index_document_outcomes_witness :
  let self := demo_indexer true false in
  let env := index_answers self (ok_response 200 (Ret (status_body "OK" []))) in
  exists w',
    _index_document env self demo_document empty_world = (Ret true, w') /\
    history w' = [] ++ [IoPost (index_request self "{}")].
Proof.
  intros self env.
  exact (proj1 (proj2 (proj2
    (index_document_outcomes env self demo_document empty_world "{}" (PStr "doc-1")
       eq_refl eq_refl)))
    (ok_response 200 (Ret (status_body "OK" [])))
    [("status", PDict [("code", PStr "OK")])] [("code", PStr "OK")]
    eq_refl eq_refl eq_refl eq_refl eq_refl).
Defined.

(** C5, as stated for every 2xx answer, fails at status 201: the body
    carries the status code ["OK"], yet the method returns [False]. *)
Lemma index_document_ok_201 :
  let self := demo_indexer true false in
  let answer := ok_response 201 (Ret (status_body "OK" [])) in
  let env := index_answers self answer in
  session_post env [] (index_request self "{}") = Ret answer /\
  200 <= status_code answer < 300 /\
  json answer = Ret (status_body "OK" []) /\
  fst (_index_document env self demo_document empty_world) = Ret false.
Proof.
  intros self answer env.
  split; [reflexivity|]. split; [simpl; lia|]. split; reflexivity.
Qed.

(** ** [_index_file] *)


Example conflict_doc_id_ex :
  conflict_doc_id (ok_response 409 (Ret conflict_details)) = Ret "abc".
Proof. reflexivity. Qed.


(** ** [_parse_pdf_file] *)

Lemma pdf_title_first_long :
  forall elements, first_long_title elements (pdf_title elements).
Proof.
  unfold pdf_title. induction elements as [|e l IH].
  - right. split; [reflexivity | intros x []].
  - simpl. fold (long_title e). destruct (long_title e) eqn:He.
    + left. exists [], e, l. simpl. unfold long_title in He.
      apply andb_true_iff in He. destruct He as [Ht Hl].
      unfold is_Title in Ht. apply Nat.ltb_lt in Hl.
      repeat split; try assumption.
      * destruct (el_type e); try discriminate; reflexivity.
      * intros x [].
    + destruct IH as [(before & e' & after & -> & Ht & Hl & Heq & Hb) | (Heq & Hall)].
      * left. exists (e :: before), e', after. simpl. repeat split; try assumption.
        intros x [<- | Hx]; [assumption | apply Hb; assumption].
      * right. split; [assumption|].
        intros x [<- | Hx]; [assumption | apply Hall; assumption].
Qed.

Lemma mapM_pdf_text_sound :
  forall env self l w texts w',
    mapM (pdf_text env self) l w = (Ret texts, w') ->
    Forall2 (text_of env self) l texts.
Proof.
  intros env self. induction l as [|e l IH]; intros w texts w' H.
  - inversion H. constructor.
  - simpl in H. unfold bind in H.
    destruct (pdf_text env self e w) as [[t|ex] w1] eqn:He; [|discriminate].
    destruct (mapM (pdf_text env self) l w1) as [[ts|ex] w2] eqn:Hl; [|discriminate].
    inversion H; subst. constructor; [|eapply IH; eassumption].
    unfold text_of, pdf_text in *.
    destruct (is_Table e && summarize_tables self).
    + unfold io in He. inversion He. eauto.
    + inversion He. reflexivity.
Qed.

Lemma mapM_pdf_text_total :
  forall env self,
    (forall h s, exists t, summarize_table_text env h s = Ret t) ->
    forall l w, exists texts w', mapM (pdf_text env self) l w = (Ret texts, w').
Proof.
  intros env self Hsum. induction l as [|e l IH]; intros w.
  - exists [], w. reflexivity.
  - simpl. unfold bind.
    assert (He : exists t w1, pdf_text env self e w = (Ret t, w1)).
    { unfold pdf_text. destruct (is_Table e && summarize_tables self).
      - unfold io. destruct (Hsum (history w) (el_text e)) as [t Ht].
        rewrite Ht. eauto.
      - unfold ret. eauto. }
    destruct He as (t & w1 & He). rewrite He.
    destruct (IH w1) as (ts & w2 & Hl). rewrite Hl. unfold ret. eauto.
Qed.

Lemma mapM_pdf_text_plain :
  forall env self,
    summarize_tables self = false ->
    forall l w, mapM (pdf_text env self) l w = (Ret (map el_text l), w).
Proof.
  intros env self Hoff. induction l as [|e l IH]; intros w.
  - reflexivity.
  - simpl. unfold bind at 1. unfold pdf_text at 1. rewrite Hoff, andb_false_r.
    unfold ret at 1. unfold bind. rewrite IH. reflexivity.
Qed.

Lemma filter_pdf_selected :
  forall tables_only elements,
    filter (pdf_selected tables_only) elements = segments_of tables_only elements.
Proof.
  intros [|] elements; unfold segments_of; apply filter_ext; intros e;
    unfold pdf_selected; simpl; [apply orb_false_r | reflexivity].
Qed.

(** C9.  On the elements that the partitioner returns, [_parse_pdf_file]
    yields as title the first [Title] element longer than ten characters,
    or ["unknown"]; its texts come one per kept element and in the order of
    the partition, where the kept elements are the non-[Title] ones, or the
    [Table] ones in tables-only mode; each text is the text of its element
    (the summary of it for a table when table summarization is on).  The
    method returns whenever the summarizer does. *)
Theorem parse_pdf_file_result :
  forall env self filename tables_only w elements,
    partition_pdf env (history w) filename = Ret elements ->
    let kept := segments_of tables_only elements in
    (forall title texts w',
        _parse_pdf_file env self filename tables_only w = (Ret (title, texts), w') ->
        first_long_title elements title /\ Forall2 (text_of env self) kept texts) /\
    (new_TableSummarizer env (history w ++ [IoPartitionPdf filename])
        (vectara_openai_api_key (cfg self)) = Ret tt ->
     (forall h s, exists t, summarize_table_text env h s = Ret t) ->
     exists title texts w',
       _parse_pdf_file env self filename tables_only w = (Ret (title, texts), w')) /\
    (new_TableSummarizer env (history w ++ [IoPartitionPdf filename])
        (vectara_openai_api_key (cfg self)) = Ret tt ->
     summarize_tables self = false ->
     exists title w',
       _parse_pdf_file env self filename tables_only w
         = (Ret (title, map el_text kept), w')).
Proof.
  intros env self filename tables_only w elements Hpart kept. subst kept.
  rewrite <- filter_pdf_selected.
  repeat split.
  - revert H. unfold _parse_pdf_file. run. rewrite Hpart.
    destruct (new_TableSummarizer env _ _); [|discriminate].
    match goal with |- context [mapM ?f ?l ?w0] => destruct (mapM f l w0) as [[ts|ex] w2] end;
      [|discriminate].
    intros H. inversion H. apply pdf_title_first_long.
  - revert H. unfold _parse_pdf_file. run. rewrite Hpart.
    destruct (new_TableSummarizer env _ _); [|discriminate].
    match goal with |- context [mapM ?f ?l ?w0] =>
      destruct (mapM f l w0) as [[ts|ex] w2] eqn:Hm end; [|discriminate].
    intros H. inversion H; subst. eapply mapM_pdf_text_sound; eassumption.
  - intros Hnew Hsum. unfold _parse_pdf_file. run. rewrite Hpart, Hnew.
    match goal with |- context [mapM ?f ?l ?w0] =>
      destruct (mapM_pdf_text_total env self Hsum l w0) as (ts & w2 & Hm) end.
    rewrite Hm. eauto.
  - intros Hnew Hoff. unfold _parse_pdf_file. run. rewrite Hpart, Hnew.
    rewrite (mapM_pdf_text_plain env self Hoff). eauto.
Qed.

Lemma parse_pdf_file_result_witness :
  let env := pdf_env (1 # 1) (always 200 (status_body "OK" [])) in
  let self := demo_indexer true false in
  first_long_title demo_elements "A long enough title" /\
  Forall2 (text_of env self) (segments_of false demo_elements) ["Preface"; "a | b"; "item"].
Proof.
  intros env self.
  exact (proj1 (parse_pdf_file_result env self "f.pdf" false empty_world demo_elements eq_refl)
           "A long enough title" ["Preface"; "a | b"; "item"]
           (snd (_parse_pdf_file env self "f.pdf" false empty_world)) eq_refl).
Defined.

Example parse_pdf_file_tables_only :
  let env := pdf_env (1 # 1) (always 200 (status_body "OK" [])) in
  fst (_parse_pdf_file env (demo_indexer true false) "f.pdf" true empty_world)
  = Ret ("A long enough title", ["a | b"]).
Proof. reflexivity. Qed.

(** The length of a title is counted in characters: a title of ten
    characters is not long enough, however many bytes it takes. *)
Example pdf_title_counts_characters :
  len "Résumé été" = 10%nat /\ String.length "Résumé été" = 14%nat /\
  pdf_title [mkElement Title "Résumé été"; mkElement Title "Eleven char"] = "Eleven char".
Proof. repeat split; reflexivity. Qed.

(** ** [index_segments] *)

Lemma default_sections_dumped :
  forall env empty_md,
    json_dumps env (PDict []) = Ret empty_md ->
    forall texts,
      rmap (section_of env) (zip3 texts (default_titles texts) (default_metadatas texts))
      = Ret (map (default_section empty_md) texts).
Proof.
  intros env empty_md He. induction texts as [|t l IH]; [reflexivity|].
  unfold default_titles, default_metadatas in *. simpl. rewrite He. simpl.
  rewrite IH. reflexivity.
Qed.

Lemma default_sections :
  forall env empty_md texts,
    (texts <> [] -> json_dumps env (PDict []) = Ret empty_md) ->
    rmap (section_of env) (zip3 texts (default_titles texts) (default_metadatas texts))
    = Ret (map (default_section empty_md) texts).
Proof.
  intros env empty_md texts H.
  destruct texts as [|t0 l]; [reflexivity|].
  apply default_sections_dumped. apply H. discriminate.
Qed.

(** C7.  With [titles] and [metadatas] left out, and as long as the
    serializer accepts the metadata it is given, [index_segments] builds a
    document with the given id whose ["section"] list has one entry per
    text, in the order of [texts], each with title [""] and the serialized
    empty dictionary as metadata; ["title"] is present exactly when
    [doc_title] is a non-empty string and ["metadataJson"] exactly when
    [doc_metadata] is non-empty.  With no text the section list is empty
    and the document is still built.  That document is what is handed to
    [index_document]. *)
Theorem index_segments_document :
  forall env self doc_id texts doc_metadata doc_title empty_md mdj w,
    (texts <> [] -> json_dumps env (PDict []) = Ret empty_md) ->
    (truthy doc_metadata = true -> json_dumps env doc_metadata = Ret mdj) ->
    exists d,
      build_document env doc_id texts None None doc_metadata doc_title = Ret (PDict d) /\
      lookup "documentId" d = Some (PStr doc_id) /\
      lookup "section" d = Some (PList (map (default_section empty_md) texts)) /\
      lookup "title" d =
        match doc_title with
        | Some t => if (t =? "")%string then None else Some (PStr t)
        | None => None
        end /\
      lookup "metadataJson" d = (if truthy doc_metadata then Some (PStr mdj) else None) /\
      (texts = [] -> lookup "section" d = Some (PList [])) /\
      index_segments env self doc_id texts None None doc_metadata doc_title w
      = index_document env self (PDict d)
          (add_invoked [C_index_segments doc_id texts None None doc_metadata doc_title] w).
Proof.
  intros env self doc_id texts doc_metadata doc_title empty_md mdj w Hempty Hmd.
  unfold index_segments, build_document.
  rewrite (default_sections env empty_md texts Hempty). cbn [rbind].
  assert (Ht : forall t, (0 <? String.length t)%nat = negb (t =? "")%string)
    by (intros [|c t]; reflexivity).
  destruct (truthy doc_metadata) eqn:Htr.
  - rewrite (Hmd eq_refl). cbn [rbind].
    eexists. split; [reflexivity|].
    destruct doc_title as [t|]; [rewrite Ht; destruct (t =? "")%string|];
      (repeat split; try reflexivity; try (intros ->; reflexivity)).
  - eexists. split; [reflexivity|].
    destruct doc_title as [t|]; [rewrite Ht; destruct (t =? "")%string|];
      (repeat split; try reflexivity; try (intros ->; reflexivity)).
Qed.

Lemma index_segments_document_witness :
  let env := pdf_env (1 # 1) (always 200 (status_body "OK" [])) in
  exists d,
    build_document env "doc-1" ["a"; "b"] None None (PDict []) (Some "T") = Ret (PDict d) /\
    lookup "documentId" d = Some (PStr "doc-1") /\
    lookup "section" d = Some (PList [default_section "{}" "a"; default_section "{}" "b"]) /\
    lookup "title" d = Some (PStr "T") /\
    lookup "metadataJson" d = None.
Proof.
  intros env.
  destruct (index_segments_document env (demo_indexer true false) "doc-1" ["a"; "b"]
              (PDict []) (Some "T") "{}" "{}" empty_world
              (fun _ => eq_refl) (fun _ => eq_refl))
    as (d & Hb & Hid & Hs & Ht & Hm & _).
  exists d. repeat split; assumption.
Defined.

Example build_document_no_text :
  let env := pdf_env (1 # 1) (always 200 (status_body "OK" [])) in
  build_document env "doc-1" [] None None (PDict []) None
  = Ret (PDict [ ("documentId", PStr "doc-1"); ("section", PList []) ]).
Proof. reflexivity. Qed.

(** ** Which methods a computation enters *)

Section Quiet.

Context {S : Type} (see : S -> list Call).

Lemma quiet_ret : forall A (a : A), quiet see (ret a).
Proof. intros A a s r s' H. inversion H. reflexivity. Qed.

Lemma quiet_raise : forall A e, quiet see (raise (A:=A) e).
Proof. intros A e s r s' H. inversion H. reflexivity. Qed.

Lemma quiet_lift : forall A (x : Result A), quiet see (lift x).
Proof. intros A x s r s' H. inversion H. reflexivity. Qed.

Lemma quiet_bind :
  forall A B (m : M S A) (k : A -> M S B),
    quiet see m -> (forall a, quiet see (k a)) -> quiet see (bind m k).
Proof.
  intros A B m k Hm Hk s r s' H. unfold bind in H.
  destruct (m s) as [[a|e] s1] eqn:E.
  - rewrite (Hk a _ _ _ H). eapply Hm; eassumption.
  - inversion H; subst. eapply Hm; eassumption.
Qed.

Lemma quiet_try_except :
  forall A (m : M S A) h,
    quiet see m -> (forall e, quiet see (h e)) -> quiet see (try_except m h).
Proof.
  intros A m h Hm Hh s r s' H. unfold try_except in H.
  destruct (m s) as [[a|e] s1] eqn:E.
  - inversion H; subst. eapply Hm; eassumption.
  - rewrite (Hh e _ _ _ H). eapply Hm; eassumption.
Qed.

Lemma quiet_try_finally :
  forall A (m : M S A) f,
    quiet see m -> quiet see f -> quiet see (try_finally m f).
Proof.
  intros A m f Hm Hf s r s' H. unfold try_finally in H.
  destruct (m s) as [r1 s1] eqn:E. destruct (f s1) as [[u|e] s2] eqn:F;
    inversion H; subst; rewrite (Hf _ _ _ F); eapply Hm; eassumption.
Qed.

Lemma quiet_if :
  forall A (b : bool) (m1 m2 : M S A),
    quiet see m1 -> quiet see m2 -> quiet see (if b then m1 else m2).
Proof. intros A [|] m1 m2 H1 H2; assumption. Qed.

End Quiet.

Lemma quiet_io : forall A ev (ask : History -> Result A), quiet invoked (io ev ask).
Proof. intros A ev ask s r s' H. inversion H. reflexivity. Qed.

Lemma quiet_log : forall lvl msg, quiet invoked (log lvl msg).
Proof. intros lvl msg s r s' H. inversion H. reflexivity. Qed.

Lemma quiet_peek : forall A (ask : History -> A), quiet invoked (peek ask).
Proof. intros A ask s r s' H. inversion H. reflexivity. Qed.

Lemma quiet_on_world :
  forall L A (m : M World A),
    quiet invoked m -> quiet (fun s : World * L => invoked (fst s)) (on_world m).
Proof.
  intros L A m Hm [w l] r [w' l'] H. unfold on_world in H. simpl in H.
  destruct (m w) as [r1 w1] eqn:E. inversion H; subst. simpl. eapply Hm; eassumption.
Qed.

Lemma quiet_assign :
  forall L (f : L -> L), quiet (fun s : World * L => invoked (fst s)) (assign f).
Proof. intros L f s r s' H. inversion H. reflexivity. Qed.

Lemma quiet_locals :
  forall L, quiet (fun s : World * L => invoked (fst s)) (@locals L).
Proof. intros L s r s' H. inversion H. reflexivity. Qed.

Create HintDb quiet.
#[local] Hint Resolve quiet_ret quiet_raise quiet_lift quiet_io quiet_log quiet_peek
  quiet_on_world quiet_assign quiet_locals : quiet.

Ltac quiet_steps :=
  repeat first
    [ apply quiet_bind; [|intros ?]
    | apply quiet_try_except; [|intros ?]
    | apply quiet_try_finally
    | apply quiet_if
    | solve [auto with quiet] ].

(** A method that records its entry and then enters nothing else. *)
Lemma entered_once :
  forall A (c : Call) (m : M World A) w r w',
    quiet invoked m ->
    (enter c ;;; m) w = (r, w') ->
    invoked w' = invoked w ++ [c].
Proof.
  intros A c m w r w' Hm H. unfold bind, enter in H.
  apply Hm in H. exact H.
Qed.

Lemma url_triggers_download_invoked :
  forall env url w r w',
    url_triggers_download env url w = (r, w') ->
    invoked w' = invoked w ++ [C_url_triggers_download url].
Proof.
  intros env url w r w' H. unfold url_triggers_download in H.
  eapply entered_once; [|exact H].
  unfold pw. quiet_steps.
  intros s r0 s' E. inversion E. reflexivity.
Qed.

Lemma fetch_page_contents_invoked :
  forall env self url debug w r w',
    fetch_page_contents env self url debug w = (r, w') ->
    invoked w' = invoked w ++ [C_fetch_page_contents url].
Proof.
  intros env self url debug w r w' H. unfold fetch_page_contents in H.
  eapply entered_once; [|exact H].
  intros s r0 s' E.
  match type of E with
  | context [try_finally ?m ?f ?st] =>
      assert (Q : quiet (fun s : World * FetchLocals => invoked (fst s)) (try_finally m f));
      [| destruct (try_finally m f st) as [[u|e] [w1 l1]] eqn:T;
         inversion E; subst; apply Q in T; exact T ]
  end.
  unfold fetch_try, fetch_except, fetch_finally, pw.
  apply quiet_try_finally.
  - apply quiet_try_except.
    + quiet_steps.
      apply quiet_on_world. intros s0 r1 s1 G. inversion G. reflexivity.
    + intros e. destruct e; quiet_steps.
  - quiet_steps.
Qed.

(** ** [index_url] *)

Lemma split_go_nonempty :
  forall sep s skip cur, split_go sep s skip cur <> [].
Proof.
  intros sep. induction s as [|c t IH]; intros skip cur.
  - discriminate.
  - cbn [split_go]. destruct skip; [destruct (prefix sep (String c t))|];
      try discriminate; apply IH.
Qed.

(** [url.split("#")[0]] never raises. *)
Lemma split_first_total :
  forall sep s, exists first, index_nat (split sep s) 0 = Ret first.
Proof.
  intros sep s. unfold split, index_nat.
  destruct (split_go sep s 0 "") eqn:E.
  - exfalso. eapply split_go_nonempty; eassumption.
  - simpl. eauto.
Qed.

(** C6.  When the URL (its fragment removed) triggers no download and the
    fetched content is absent or shorter than three characters,
    [index_url] returns [False]; the only methods it has entered are
    [url_triggers_download] and [fetch_page_contents], so neither
    [index_segments] nor [index_document] is invoked. *)
Theorem index_url_short_content :
  forall env self url metadata w url' w1 content actual_url links w2,
    index_nat (split "#" url) 0 = Ret url' ->
    url_triggers_download env url' (add_invoked [C_index_url url metadata] w) = (Ret false, w1) ->
    fetch_page_contents env self url' false w1 = (Ret (content, actual_url, links), w2) ->
    (content = None \/ exists c, content = Some c /\ (len c < 3)%nat) ->
    index_url env self url metadata w = (Ret false, w2) /\
    invoked w2 = invoked w ++
      [C_index_url url metadata; C_url_triggers_download url'; C_fetch_page_contents url'].
Proof.
  intros env self url metadata w url' w1 content actual_url links w2 Hsplit Hdl Hfetch Hshort.
  split.
  - unfold index_url. unfold bind at 1. unfold enter at 1.
    fold (add_invoked [C_index_url url metadata] w).
    unfold bind at 1. unfold lift at 1. rewrite Hsplit.
    unfold bind at 1. rewrite Hdl.
    unfold bind at 1. unfold with_local, try_except, crawl.
    unfold bind at 1. unfold locals at 1. cbv beta iota. cbn [snd].
    unfold bind at 1. unfold on_world at 1. cbn [fst snd]. rewrite Hfetch.
    destruct Hshort as [-> | (c & -> & Hlen)].
    + reflexivity.
    + apply Nat.ltb_lt in Hlen. rewrite Hlen. reflexivity.
  - apply fetch_page_contents_invoked in Hfetch.
    apply url_triggers_download_invoked in Hdl.
    rewrite Hfetch, Hdl. simpl. rewrite <- !app_assoc. reflexivity.
Qed.

Lemma index_url_short_content_witness :
  let env := page_env (Some "ab") in
  let self := demo_indexer true false in
  let w2 := snd (index_url env self "http://a.example/p#top" (PDict []) empty_world) in
  index_url env self "http://a.example/p#top" (PDict []) empty_world = (Ret false, w2) /\
  invoked w2 = [] ++
    [C_index_url "http://a.example/p#top" (PDict []);
     C_url_triggers_download "http://a.example/p"; C_fetch_page_contents "http://a.example/p"].
Proof.
  intros env self w2.
  refine (index_url_short_content env self "http://a.example/p#top" (PDict []) empty_world
           "http://a.example/p"
           (snd (url_triggers_download env "http://a.example/p"
                   (add_invoked [C_index_url "http://a.example/p#top" (PDict [])] empty_world)))
           (Some "ab") "http://resolved.example/" [] w2 eq_refl eq_refl eq_refl _).
  right. exists "ab". split; [reflexivity | simpl; lia].
Defined.

Example index_url_page_indexed :
  let env := page_env (Some "<html><body>hello</body></html>") in
  let run := index_url env (demo_indexer true false) "http://a.example/p#top" (PDict []) empty_world in
  fst run = Ret true /\
  invoked (snd run) =
    [C_index_url "http://a.example/p#top" (PDict []);
     C_url_triggers_download "http://a.example/p"; C_fetch_page_contents "http://a.example/p";
     C_index_segments "http://resolved.example/" ["<html><body>hello</body></html>"] None None
       (PDict []) None;
     C_index_document (PDict [("documentId", PStr "http://resolved.example/");
                            ("section", PList [default_section "{}" "<html><body>hello</body></html>"])]);
     C__index_document (PDict [("documentId", PStr "http://resolved.example/");
                            ("section", PList [default_section "{}" "<html><body>hello</body></html>"])])].
Proof. split; reflexivity. Qed.

Section EntersOnly.

Variable P : Call -> Prop.

Lemma quiet_enters_only : forall A (m : M World A), quiet invoked m -> enters_only P m.
Proof.
  intros A m Hm w r w' H. exists []. rewrite app_nil_r. split; [eapply Hm; eassumption|constructor].
Qed.

Lemma enters_only_enter : forall c, P c -> enters_only P (enter c).
Proof.
  intros c Hc w r w' H. inversion H. exists [c]. split; [reflexivity|]. repeat constructor. exact Hc.
Qed.

Lemma enters_only_bind :
  forall A B (m : M World A) (k : A -> M World B),
    enters_only P m -> (forall a, enters_only P (k a)) -> enters_only P (bind m k).
Proof.
  intros A B m k Hm Hk w r w' H. unfold bind in H.
  destruct (m w) as [[a|e] w1] eqn:E.
  - destruct (Hm _ _ _ E) as (c1 & E1 & F1). destruct (Hk a _ _ _ H) as (c2 & E2 & F2).
    exists (c1 ++ c2). rewrite E2, E1, app_assoc. split; [reflexivity|].
    apply Forall_app; split; assumption.
  - inversion H; subst. eapply Hm; eassumption.
Qed.

Lemma enters_only_try_except :
  forall A (m : M World A) h,
    enters_only P m -> (forall e, enters_only P (h e)) -> enters_only P (try_except m h).
Proof.
  intros A m h Hm Hh w r w' H. unfold try_except in H.
  destruct (m w) as [[a|e] w1] eqn:E.
  - inversion H; subst. eapply Hm; eassumption.
  - destruct (Hm _ _ _ E) as (c1 & E1 & F1). destruct (Hh e _ _ _ H) as (c2 & E2 & F2).
    exists (c1 ++ c2). rewrite E2, E1, app_assoc. split; [reflexivity|].
    apply Forall_app; split; assumption.
Qed.

End EntersOnly.

Create HintDb enters.

Ltac enters_steps :=
  repeat first
    [ solve [auto with enters]
    | apply enters_only_bind; [|intros ?]
    | apply enters_only_try_except; [|intros ?]
    | apply enters_only_enter; solve [simpl; auto]
    | apply quiet_enters_only; solve [auto with quiet]
    | match goal with
      | |- enters_only _ (if ?b then _ else _) => destruct b
      | |- enters_only _ (match ?x with _ => _ end) => destruct x
      end ].

Lemma delete_doc_enters :
  forall env self doc_id, enters_only indexing_call (delete_doc env self doc_id).
Proof. intros. unfold delete_doc, post. enters_steps. Qed.

#[local] Hint Resolve delete_doc_enters : enters.

Lemma _index_document_enters :
  forall env self document, enters_only indexing_call (_index_document env self document).
Proof.
  intros. unfold _index_document, documentId, post. enters_steps.
Qed.

#[local] Hint Resolve _index_document_enters : enters.

Lemma index_segments_enters :
  forall env self doc_id texts titles metadatas doc_metadata doc_title w r w',
    index_segments env self doc_id texts titles metadatas doc_metadata doc_title w = (r, w') ->
    exists rest,
      invoked w' = invoked w ++
        C_index_segments doc_id texts titles metadatas doc_metadata doc_title :: rest /\
      Forall indexing_call rest.
Proof.
  intros env self doc_id texts titles metadatas doc_metadata doc_title w r w' H.
  unfold index_segments in H. unfold bind at 1 in H. unfold enter at 1 in H.
  assert (E : enters_only indexing_call
                (document <- lift (build_document env doc_id texts titles metadatas
                                     doc_metadata doc_title) ;;
                 index_document env self document)).
  { unfold index_document. enters_steps. }
  destruct (E _ _ _ H) as (rest & Hr & Hf). exists rest. split; [|exact Hf].
  rewrite Hr. simpl. rewrite <- app_assoc. reflexivity.
Qed.

Lemma _parse_pdf_file_invoked :
  forall env self filename tables_only w r w',
    _parse_pdf_file env self filename tables_only w = (r, w') ->
    invoked w' = invoked w ++ [C__parse_pdf_file filename tables_only].
Proof.
  intros env self filename tables_only w r w' H. unfold _parse_pdf_file in H.
  eapply entered_once; [|exact H].
  quiet_steps.
  match goal with |- quiet _ (mapM _ ?sel) => induction sel as [|e sel' IH] end.
  - apply quiet_ret.
  - simpl; quiet_steps; unfold pdf_text; quiet_steps.
Qed.

(** ** [index_file] *)

(** The run of [index_file] on an existing file, up to the size test. *)
Lemma index_file_start :
  forall env self filename uri metadata w,
    path_exists env (history w) filename = true ->
    index_file env self filename uri metadata w =
      (big <- (if endswith filename ".pdf"
               then size <- file_size env filename ;; ret (Qle_bool 50 size)
               else ret false) ;;
       if big then
         tt' <- _parse_pdf_file env self filename false ;;
         let '(title, texts) := tt' in
         succeeded <- index_segments env self (slugify env filename) texts None None
                        metadata (Some title) ;;
         log INFO [Lit "For file "; VStr filename;
                   Lit ", indexing text only since file size is larger than 50MB"] ;;;
         ret succeeded
       else
         stop <- (if summarize_tables self && endswith filename ".pdf" then
                    try_except
                      (tt' <- _parse_pdf_file env self filename true ;;
                       index_segments env self (slugify env (filename ++ "_tables")%string)
                         (snd tt') None None metadata
                         (Some ("Tables for " ++ filename)%string) ;;;
                       ret false)
                      (fun e =>
                         log INFO [Lit "Failed to index "; VStr filename; Lit " with error ";
                                   VExn e; Lit ", skipping..."] ;;;
                         ret true)
                  else ret false) ;;
         if stop then ret false
         else _index_file env self filename uri metadata)
      (add_invoked [C_index_file filename uri metadata] w).
Proof.
  intros env self filename uri metadata w Hex.
  unfold index_file. unfold bind at 1. unfold enter at 1.
  unfold bind at 1. unfold peek at 1. cbn [history]. rewrite Hex. reflexivity.
Qed.

(** C4.  For an existing file named [*.pdf] whose size is 50 MB or more
    (so in particular when it exceeds 50 MB), once the local extraction
    has returned a title and texts, [index_file] calls [index_segments]
    once with the document id [slugify(filename)], these texts and this
    title, and ends the way that call ends; apart from the extraction and
    what [index_segments] itself calls, no other method is entered: the
    upload method [_index_file] is not. *)
Theorem index_file_large_pdf :
  forall env self filename uri metadata w size title texts w1 r w2,
    path_exists env (history w) filename = true ->
    endswith filename ".pdf" = true ->
    get_file_size_in_MB env (history w) filename = Ret size ->
    (50 <= size)%Q ->
    _parse_pdf_file env self filename false (add_invoked [C_index_file filename uri metadata] w)
      = (Ret (title, texts), w1) ->
    index_segments env self (slugify env filename) texts None None metadata (Some title) w1
      = (r, w2) ->
    exists w' rest,
      index_file env self filename uri metadata w = (r, w') /\
      invoked w' = invoked w ++
        [C_index_file filename uri metadata; C__parse_pdf_file filename false;
         C_index_segments (slugify env filename) texts None None metadata (Some title)] ++ rest /\
      Forall indexing_call rest.
Proof.
  intros env self filename uri metadata w size title texts w1 r w2
         Hex Hpdf Hsize Hbig Hparse Hseg.
  rewrite (index_file_start _ _ _ _ _ _ Hex). rewrite Hpdf.
  apply Qle_bool_iff in Hbig.
  unfold bind at 1. unfold bind at 1. unfold file_size at 1. simpl history.
  rewrite Hsize. unfold ret at 1. rewrite Hbig.
  unfold bind at 1. rewrite Hparse. unfold bind at 1. rewrite Hseg.
  destruct (index_segments_enters _ _ _ _ _ _ _ _ _ _ _ Hseg) as (rest & Hinv & Hrest).
  apply _parse_pdf_file_invoked in Hparse. simpl in Hparse.
  assert (Hw2 : invoked w2 = invoked w ++
            [C_index_file filename uri metadata; C__parse_pdf_file filename false;
             C_index_segments (slugify env filename) texts None None metadata (Some title)]
            ++ rest).
  { rewrite Hinv, Hparse. rewrite <- !app_assoc. reflexivity. }
  destruct r as [b|e].
  - eexists. exists rest. split; [reflexivity|]. split; [exact Hw2 | exact Hrest].
  - exists w2, rest. split; [reflexivity|]. split; [exact Hw2 | exact Hrest].
Qed.

Lemma index_file_large_pdf_witness :
  let env := pdf_env (60 # 1) (always 200 (status_body "OK" [])) in
  let self := demo_indexer true false in
  exists w' rest,
    index_file env self "big.pdf" "u" (PDict []) empty_world = (Ret true, w') /\
    invoked w' = [] ++
      [C_index_file "big.pdf" "u" (PDict []); C__parse_pdf_file "big.pdf" false;
       C_index_segments "big.pdf" ["Preface"; "a | b"; "item"] None None (PDict [])
         (Some "A long enough title")] ++ rest /\
    Forall indexing_call rest.
Proof.
  intros env self.
  refine (index_file_large_pdf env self "big.pdf" "u" (PDict []) empty_world (60 # 1)
           "A long enough title" ["Preface"; "a | b"; "item"]
           (snd (_parse_pdf_file env self "big.pdf" false
                   (add_invoked [C_index_file "big.pdf" "u" (PDict [])] empty_world)))
           (Ret true)
           (snd (index_segments env self "big.pdf" ["Preface"; "a | b"; "item"] None None
                   (PDict []) (Some "A long enough title")
                   (snd (_parse_pdf_file env self "big.pdf" false
                           (add_invoked [C_index_file "big.pdf" "u" (PDict [])] empty_world)))))
           eq_refl eq_refl eq_refl _ eq_refl eq_refl).
  unfold Qle; simpl; lia.
Defined.

Lemma _parse_pdf_file_texts :
  forall env self filename tables_only w elements title texts w',
    partition_pdf env (history w) filename = Ret elements ->
    _parse_pdf_file env self filename tables_only w = (Ret (title, texts), w') ->
    Forall2 (text_of env self) (segments_of tables_only elements) texts.
Proof.
  intros env self filename tables_only w elements title texts w' Hpart.
  rewrite <- filter_pdf_selected.
  unfold _parse_pdf_file. run. rewrite Hpart.
  destruct (new_TableSummarizer env _ _); [|discriminate].
  match goal with |- context [mapM ?f ?l ?w0] =>
    destruct (mapM f l w0) as [[ts|ex] w2] eqn:Hm end; [|discriminate].
  intros H. inversion H; subst. eapply mapM_pdf_text_sound; eassumption.
Qed.

(** C3 (amended).  With table summarization on and an existing [*.pdf] file
    below 50 MB, [index_file] makes a second pass before the upload: it
    extracts in tables-only mode, so the texts come from the [Table]
    elements alone, and calls [index_segments] with the document id
    [slugify(filename + "_tables")] and the title ["Tables for " + filename].
    When the extraction or that call raises, [index_file] logs the error
    and returns [False]; when the call returns, [index_file] goes on to
    upload the file and ends the way [_index_file] ends. *)
Theorem index_file_tables_pass :
  forall env self filename uri metadata w size,
    summarize_tables self = true ->
    endswith filename ".pdf" = true ->
    path_exists env (history w) filename = true ->
    get_file_size_in_MB env (history w) filename = Ret size ->
    (size < 50)%Q ->
    let w0 := add_invoked [C_index_file filename uri metadata] w in
    (forall e w1,
        _parse_pdf_file env self filename true w0 = (Raise e, w1) ->
        index_file env self filename uri metadata w
          = (Ret false, add_logs (failed_to_index filename e) w1)) /\
    (forall title texts w1,
        _parse_pdf_file env self filename true w0 = (Ret (title, texts), w1) ->
        let second :=
          index_segments env self (slugify env (filename ++ "_tables")%string) texts
            None None metadata (Some ("Tables for " ++ filename)%string) w1 in
        (forall elements,
            partition_pdf env (history w) filename = Ret elements ->
            Forall2 (text_of env self) (filter is_Table elements) texts) /\
        (forall e w2,
            second = (Raise e, w2) ->
            index_file env self filename uri metadata w
              = (Ret false, add_logs (failed_to_index filename e) w2)) /\
        (forall b w2,
            second = (Ret b, w2) ->
            index_file env self filename uri metadata w
              = _index_file env self filename uri metadata w2)).
Proof.
  intros env self filename uri metadata w size Hsum Hpdf Hex Hsize Hsmall w0.
  assert (Hstart : index_file env self filename uri metadata w =
            (stop <- try_except
                      (tt' <- _parse_pdf_file env self filename true ;;
                       index_segments env self (slugify env (filename ++ "_tables")%string)
                         (snd tt') None None metadata
                         (Some ("Tables for " ++ filename)%string) ;;;
                       ret false)
                      (fun e => log INFO [Lit "Failed to index "; VStr filename;
                                          Lit " with error "; VExn e; Lit ", skipping..."] ;;;
                                ret true) ;;
             if stop then ret false else _index_file env self filename uri metadata) w0).
  { rewrite (index_file_start _ _ _ _ _ _ Hex). rewrite Hpdf, Hsum.
    unfold bind at 1. unfold bind at 1. unfold file_size at 1. cbn [history add_invoked].
    rewrite Hsize. unfold ret at 1.
    destruct (Qle_bool 50 size) eqn:Hb.
    - apply Qle_bool_iff in Hb. exfalso. exact (Qlt_not_le _ _ Hsmall Hb).
    - reflexivity. }
  rewrite Hstart. clear Hstart.
  split; [|intros title texts w1 Hparse second; split; [|split]].
  - intros e w1 Hparse. unfold bind at 1. unfold try_except. unfold bind at 1.
    rewrite Hparse. reflexivity.
  - intros elements Hpart.
    exact (_parse_pdf_file_texts env self filename true w0 elements title texts w1 Hpart Hparse).
  - intros e w2 Hsecond. subst second. unfold bind at 1. unfold try_except.
    unfold bind at 1. rewrite Hparse. unfold bind at 1. cbn [snd]. rewrite Hsecond.
    reflexivity.
  - intros b w2 Hsecond. subst second. unfold bind at 1. unfold try_except.
    unfold bind at 1. rewrite Hparse. unfold bind at 1. cbn [snd]. rewrite Hsecond.
    reflexivity.
Qed.

Lemma index_file_tables_pass_witness :
  let env := pdf_env (1 # 1) index_rejected in
  let self := demo_indexer true true in
  let w1 := snd (_parse_pdf_file env self "a.pdf" true
                   (add_invoked [C_index_file "a.pdf" "u" (PDict [])] empty_world)) in
  let w2 := snd (index_segments env self "a.pdf_tables" ["a | b"] None None (PDict [])
                   (Some "Tables for a.pdf") w1) in
  index_file env self "a.pdf" "u" (PDict []) empty_world
  = _index_file env self "a.pdf" "u" (PDict []) w2.
Proof.
  intros env self w1 w2.
  refine (proj2 (proj2 (proj2
    (index_file_tables_pass env self "a.pdf" "u" (PDict []) empty_world (1 # 1)
       eq_refl eq_refl eq_refl eq_refl _)
    "A long enough title" ["a | b"] w1 eq_refl)) false w2 eq_refl).
  unfold Qlt; simpl; lia.
Defined.

(** C3, as stated, fails when the second pass fails without raising: the
    index request for the tables document is answered with status 500, so
    [index_segments] returns [False], and [index_file] still uploads the
    file and returns [True]. *)
Lemma index_file_tables_pass_failed :
  let env := pdf_env (1 # 1) index_rejected in
  let self := demo_indexer true true in
  let w1 := snd (_parse_pdf_file env self "a.pdf" true
                   (add_invoked [C_index_file "a.pdf" "u" (PDict [])] empty_world)) in
  summarize_tables self = true /\
  endswith "a.pdf" ".pdf" = true /\
  get_file_size_in_MB env [] "a.pdf" = Ret (1 # 1)%Q /\
  fst (index_segments env self (slugify env "a.pdf_tables") ["a | b"] None None (PDict [])
         (Some "Tables for a.pdf") w1) = Ret false /\
  fst (index_file env self "a.pdf" "u" (PDict []) empty_world) = Ret true /\
  In (C_index_segments "a.pdf_tables" ["a | b"] None None (PDict []) (Some "Tables for a.pdf"))
     (invoked (snd (index_file env self "a.pdf" "u" (PDict []) empty_world))).
Proof.
  intros env self w1. repeat split; try reflexivity.
  vm_compute. tauto.
Qed.

(** Once a download has been saved, anything but a [*.pdf] URL ends in an
    [UnboundLocalError]: the markup branch reads [content], which only the
    other branch of line 285 assigns, and a URL of no known suffix leaves
    [parts] unassigned for line 335. *)
Lemma index_url_download_not_pdf :
  forall env self url metadata w url' w1 w2,
    index_nat (split "#" url) 0 = Ret url' ->
    url_triggers_download env url' (add_invoked [C_index_url url metadata] w) = (Ret true, w1) ->
    download env url' w1 = (Ret true, w2) ->
    endswith url' ".pdf" = false ->
    index_url env self url metadata w = (Raise UnboundLocalError, w2).
Proof.
  intros env self url metadata w url' w1 w2 Hsplit Hdl Hsave Hpdf.
  unfold index_url. unfold bind at 1. unfold enter at 1.
  fold (add_invoked [C_index_url url metadata] w).
  unfold bind at 1. unfold lift at 1. rewrite Hsplit.
  unfold bind at 1. rewrite Hdl.
  unfold bind at 1. unfold bind at 1. rewrite Hsave.
  unfold parse_download. rewrite Hpdf.
  destruct (endswith url' ".md" || endswith url' ".rst" || endswith (lower url') ".ipynb");
    reflexivity.
Qed.

(** C2, at a Markdown URL that triggers a download answered with status
    200: [index_url] ends with an [UnboundLocalError] instead of a
    boolean, and nothing has been logged about a failure. *)
Theorem index_url_markdown_download_raises :
  let run := index_url download_env (demo_indexer true false)
               "https://h.example/notes.md" (PDict []) empty_world in
  fst run = Raise UnboundLocalError /\
  logs (snd run) = [(INFO, [Lit "File downloaded successfully and saved as "; VStr tmpfile])].
Proof. split; reflexivity. Qed.

Example index_url_unknown_suffix_raises :
  fst (index_url download_env (demo_indexer true false)
         "https://h.example/report.docx" (PDict []) empty_world)
  = Raise UnboundLocalError.
Proof. reflexivity. Qed.

Example index_url_pdf_download_indexed :
  fst (index_url download_env (demo_indexer true false)
         "https://h.example/report.pdf" (PDict []) empty_world)
  = Ret true.
Proof. reflexivity. Qed.

(** * Further properties of the methods *)

(** ** [_index_file] and [index_file] without conflict *)

(** X1.  For a file that does not exist, [_index_file] logs an error and
    returns [False]; the file is not opened and no request is sent. *)
Theorem index_file_raw_missing :
  forall env self filename uri metadata w,
    path_exists env (history w) filename = false ->
    exists w',
      _index_file env self filename uri metadata w = (Ret false, w') /\
      history w' = history w /\
      logs w' = logs w ++ file_missing filename.
Proof.
  intros env self filename uri metadata w Hex.
  unfold _index_file. run. rewrite Hex. simpl.
  eexists. split; [reflexivity|]. split; reflexivity.
Qed.

Lemma index_file_raw_missing_witness :
  let env := set_path_exists (fun _ _ => false) (quiet_env (always 200 (PDict [])) (fun _ => Ret "{}")) in
  exists w',
    _index_file env (demo_indexer true false) "gone.pdf" "u" (PDict []) empty_world
      = (Ret false, w') /\
    history w' = [] /\
    logs w' = [] ++ file_missing "gone.pdf".
Proof.
  intros env.
  exact (index_file_raw_missing env (demo_indexer true false) "gone.pdf" "u" (PDict [])
           empty_world eq_refl).
Defined.

(** X2.  When the upload of an existing file is answered with a status
    other than 409, [_index_file] returns [True] exactly for status 200;
    the file is opened once and one request is sent, to the upload URL
    that carries [d=True]. *)
Theorem index_file_raw_no_conflict :
  forall env self filename uri metadata w md response,
    path_exists env (history w) filename = true ->
    open_rb env (history w) filename = Ret tt ->
    json_dumps env metadata = Ret md ->
    let rq := upload_request self "&d=True" (Files uri filename md) in
    session_post env (history w ++ [IoOpenRead filename]) rq = Ret response ->
    status_code response <> 409 ->
    exists w',
      _index_file env self filename uri metadata w
        = (Ret (status_code response =? 200), w') /\
      history w' = history w ++ [IoOpenRead filename; IoPost rq] /\
      invoked w' = invoked w ++ [C__index_file filename uri metadata].
Proof.
  intros env self filename uri metadata w md response Hex Hop Hmd rq Hp Hst.
  unfold _index_file. run. rewrite Hex. simpl. rewrite Hop, Hmd. simpl.
  fold rq. rewrite Hp. apply Z.eqb_neq in Hst. rewrite Hst.
  destruct (status_code response =? 200); simpl;
    (eexists; split; [reflexivity|]; simpl; rewrite <- app_assoc; split; reflexivity).
Qed.

Lemma index_file_raw_no_conflict_witness :
  let env := quiet_env (always 503 (PDict [])) (fun _ => Ret "{}") in
  let self := demo_indexer true false in
  exists w',
    _index_file env self "a.txt" "u" (PDict []) empty_world = (Ret (503 =? 200), w') /\
    history w' = [] ++ [IoOpenRead "a.txt";
                        IoPost (upload_request self "&d=True" (Files "u" "a.txt" "{}"))] /\
    invoked w' = [] ++ [C__index_file "a.txt" "u" (PDict [])].
Proof.
  intros env self.
  refine (index_file_raw_no_conflict env self "a.txt" "u" (PDict []) empty_world "{}"
            (ok_response 503 (Ret (PDict []))) eq_refl eq_refl eq_refl eq_refl _).
  simpl. lia.
Defined.

(** X3.  For a file that does not exist, [index_file] logs an error and
    returns [False] without entering any other method and without any
    interaction (no size query, no extraction, no upload). *)
Theorem index_file_missing :
  forall env self filename uri metadata w,
    path_exists env (history w) filename = false ->
    index_file env self filename uri metadata w =
      (Ret false,
       mkWorld (history w) (invoked w ++ [C_index_file filename uri metadata])
               (logs w ++ file_missing filename) (detected_language w)).
Proof.
  intros env self filename uri metadata w Hex.
  unfold index_file. run. rewrite Hex. reflexivity.
Qed.

Lemma index_file_missing_witness :
  let env := set_path_exists (fun _ _ => false) (pdf_env (60 # 1) (always 200 (PDict []))) in
  index_file env (demo_indexer true true) "gone.pdf" "u" (PDict []) empty_world =
    (Ret false,
     mkWorld [] ([] ++ [C_index_file "gone.pdf" "u" (PDict [])])
             ([] ++ file_missing "gone.pdf") None).
Proof.
  intros env.
  exact (index_file_missing env (demo_indexer true true) "gone.pdf" "u" (PDict [])
           empty_world eq_refl).
Defined.

Lemma index_file_direct :
  forall env self filename uri metadata w,
    path_exists env (history w) filename = true ->
    (endswith filename ".pdf" = false \/
     (summarize_tables self = false /\
      exists size, get_file_size_in_MB env (history w) filename = Ret size /\
                   (size < 50)%Q)) ->
    index_file env self filename uri metadata w
    = _index_file env self filename uri metadata
        (add_invoked [C_index_file filename uri metadata] w).
Proof.
  intros env self filename uri metadata w Hex Hcase.
  rewrite (index_file_start _ _ _ _ _ _ Hex).
  destruct Hcase as [Hpdf | (Hsum & size & Hsize & Hsmall)].
  - rewrite Hpdf, andb_false_r. reflexivity.
  - rewrite Hsum. cbn [andb].
    destruct (endswith filename ".pdf"); [|reflexivity].
    unfold bind at 1. unfold bind at 1. unfold file_size at 1. cbn [history add_invoked].
    rewrite Hsize. unfold ret at 1.
    destruct (Qle_bool 50 size) eqn:Hb.
    + apply Qle_bool_iff in Hb. exfalso. exact (Qlt_not_le _ _ Hsmall Hb).
    + reflexivity.
Qed.

(** X4.  For an existing file, [index_file] goes straight to the upload,
    and ends as [_index_file] ends, when the name does not end in [.pdf]
    (the size is then not even asked for), and also when it does but the
    file is below 50 MB and table summarization is off. *)
Theorem index_file_direct_upload :
  forall env self filename uri metadata w,
    path_exists env (history w) filename = true ->
    (endswith filename ".pdf" = false \/
     (summarize_tables self = false /\
      exists size, get_file_size_in_MB env (history w) filename = Ret size /\
                   (size < 50)%Q)) ->
    index_file env self filename uri metadata w
    = _index_file env self filename uri metadata
        (add_invoked [C_index_file filename uri metadata] w).
Proof.
  intros env self filename uri metadata w Hex Hcase.
  apply index_file_direct; assumption.
Qed.

Lemma index_file_direct_upload_witness :
  let env := pdf_env (60 # 1) (always 200 (PDict [])) in
  let self := demo_indexer true true in
  index_file env self "notes.txt" "u" (PDict []) empty_world
  = _index_file env self "notes.txt" "u" (PDict [])
      (add_invoked [C_index_file "notes.txt" "u" (PDict [])] empty_world).
Proof.
  intros env self.
  exact (index_file_direct_upload env self "notes.txt" "u" (PDict []) empty_world
           eq_refl (or_introl eq_refl)).
Defined.

(** ** [_index_document]: what escapes and what does not *)

(** X5.  When the request cannot be serialized, [_index_document] logs it
    and returns [False]; nothing is sent. *)
Theorem index_document_unserializable :
  forall env self document w e,
    json_dumps env (index_request_body self document) = Raise e ->
    exists w',
      _index_document env self document w = (Ret false, w') /\
      history w' = history w /\
      logs w' = logs w ++
        [(INFO, [Lit "Can't serialize request "; VVal (index_request_body self document);
                 Lit ", skipping"])].
Proof.
  intros env self document w e He.
  unfold _index_document. run. rewrite He. simpl.
  eexists. split; [reflexivity|]. split; reflexivity.
Qed.

Lemma index_document_unserializable_witness :
  let env := quiet_env (always 200 (status_body "OK" [])) (fun _ => Raise TypeError) in
  let self := demo_indexer true false in
  exists w',
    _index_document env self demo_document empty_world = (Ret false, w') /\
    history w' = [] /\
    logs w' = [] ++
      [(INFO, [Lit "Can't serialize request "; VVal (index_request_body self demo_document);
               Lit ", skipping"])].
Proof.
  intros env self.
  exact (index_document_unserializable env self demo_document empty_world TypeError eq_refl).
Defined.

(** X6.  A 200 answer whose body cannot be read the way lines 237-240
    read it makes [_index_document] raise instead of returning: the
    decoding error of [response.json()] when the body is not JSON, and a
    [KeyError] when the body has a non-empty ["status"] dictionary without
    a ["code"].  One request has been sent by then. *)
Theorem index_document_unreadable_body :
  forall env self document w data response,
    json_dumps env (index_request_body self document) = Ret data ->
    session_post env (history w) (index_request self data) = Ret response ->
    status_code response = 200 ->
    let raises (e : exn) :=
      exists w', _index_document env self document w = (Raise e, w') /\
                 history w' = history w ++ [IoPost (index_request self data)] in
    (forall e, json response = Raise e -> raises e) /\
    (forall d st,
        json response = Ret (PDict d) ->
        lookup "status" d = Some (PDict st) ->
        st <> [] ->
        lookup "code" st = None ->
        raises KeyError).
Proof.
  intros env self document w data response Hd Hp Hst raises. subst raises.
  rewrite (_index_document_answered _ _ _ _ _ _ Hd Hp).
  rewrite Hst. cbn zeta. change (negb (200 =? 200)) with false. cbv iota.
  split.
  - intros e He. run. rewrite He. eexists. split; reflexivity.
  - intros d st Hj Hs Hne Hc. run. rewrite Hj. simpl.
    unfold with_status. simpl. rewrite Hs. simpl.
    assert (Ht : truthy (PDict st) = true) by (destruct st; [contradiction | reflexivity]).
    rewrite Ht. simpl. unfold says_already_exists. simpl. rewrite Hc. simpl.
    eexists. split; reflexivity.
Qed.

Lemma index_document_unreadable_body_witness :
  let self := demo_indexer true false in
  let body := PDict [("status", PDict [("statusDetail", PStr "?")])] in
  let env := index_answers self (ok_response 200 (Ret body)) in
  exists w',
    _index_document env self demo_document empty_world = (Raise KeyError, w') /\
    history w' = [] ++ [IoPost (index_request self "{}")].
Proof.
  intros self body env.
  refine (proj2
    (index_document_unreadable_body env self demo_document empty_world "{}"
       (ok_response 200 (Ret body)) eq_refl eq_refl eq_refl)
    [("status", PDict [("statusDetail", PStr "?")])] [("statusDetail", PStr "?")]
    eq_refl eq_refl _ eq_refl).
  discriminate.
Defined.

(** X7.  On the re-index path an exception of the delete request is not
    caught: [_index_document] raises it, after the first index request and
    the delete attempt, and the document is not submitted again. *)
Theorem index_document_delete_raises :
  forall env self document w data response result id ddata e,
    json_dumps env (index_request_body self document) = Ret data ->
    session_post env (history w) (index_request self data) = Ret response ->
    status_code response = 200 ->
    json response = Ret result ->
    already_exists_body result ->
    getitem document "documentId" = Ret id ->
    reindex self = true ->
    json_dumps env (delete_body self id) = Ret ddata ->
    session_post env (history w ++ [IoPost (index_request self data)])
      (delete_request self ddata) = Raise e ->
    exists w',
      _index_document env self document w = (Raise e, w') /\
      history w' = history w ++
        [IoPost (index_request self data); IoPost (delete_request self ddata)].
Proof.
  intros env self document w data response result id ddata e
         Hd Hp Hst Hj Hb Hid Hre Hdd Hde.
  pose proof (already_exists_body_test _ Hb) as Ht.
  rewrite (_index_document_answered _ _ _ _ _ _ Hd Hp).
  rewrite Hst. cbn zeta. change (negb (200 =? 200)) with false. cbv iota.
  unfold documentId, delete_doc. run. rewrite Hj. simpl. rewrite Ht. simpl. rewrite Hre.
  rewrite Hid. simpl. rewrite Hdd. simpl. rewrite Hde.
  eexists. split; [reflexivity|]. simpl. rewrite <- app_assoc. reflexivity.
Qed.

Lemma index_document_delete_raises_witness :
  let self := demo_indexer true false in
  let env := quiet_env
    (fun _ rq => if str_in "/v1/index" (rq_url rq)
                 then Ret (ok_response 200 (Ret (status_body "ALREADY_EXISTS" [])))
                 else Raise (OtherError "connection reset"))
    (fun _ => Ret "{}") in
  exists w',
    _index_document env self demo_document empty_world
      = (Raise (OtherError "connection reset"), w') /\
    history w' = [] ++ [IoPost (index_request self "{}"); IoPost (delete_request self "{}")].
Proof.
  intros self env.
  exact (index_document_delete_raises env self demo_document empty_world "{}"
           (ok_response 200 (Ret (status_body "ALREADY_EXISTS" [])))
           (status_body "ALREADY_EXISTS" []) (PStr "doc-1") "{}"
           (OtherError "connection reset")
           eq_refl eq_refl eq_refl eq_refl already_exists_body_demo eq_refl eq_refl
           eq_refl eq_refl).
Defined.

(** ** [index_segments] with titles and metadata given *)

Lemma sections_zip3 :
  forall env texts titles metadatas,
    Forall (fun md => exists s, json_dumps env md = Ret s) metadatas ->
    exists sections,
      rmap (section_of env) (zip3 texts titles metadatas) = Ret sections /\
      length sections = Nat.min (length texts) (Nat.min (length titles) (length metadatas)) /\
      forall i text title md s,
        nth_error texts i = Some text ->
        nth_error titles i = Some title ->
        nth_error metadatas i = Some md ->
        json_dumps env md = Ret s ->
        nth_error sections i = Some (section_entry text title s).
Proof.
  intros env. induction texts as [|t texts IH]; intros titles metadatas Hall.
  - exists []. repeat split. intros [|i]; discriminate.
  - destruct titles as [|ti titles].
    { exists []. repeat split. intros i ? ? ? ? _ H; destruct i; discriminate. }
    destruct metadatas as [|md metadatas].
    { exists []. split; [reflexivity|]. split.
      - simpl. lia.
      - intros i ? ? ? ? _ _ H; destruct i; discriminate. }
    inversion Hall as [|? ? (s0 & Hs0) Hrest]; subst.
    destruct (IH titles metadatas Hrest) as (sections & Hr & Hlen & Hnth).
    exists (section_entry t ti s0 :: sections). split; [|split].
    + simpl. rewrite Hs0. simpl. rewrite Hr. reflexivity.
    + simpl. rewrite Hlen. reflexivity.
    + intros [|i] text title md' s Ht Hti Hmd Hs; simpl in *.
      * inversion Ht; inversion Hti; inversion Hmd; subst.
        rewrite Hs0 in Hs. inversion Hs. reflexivity.
      * eapply Hnth; eassumption.
Qed.

(** X8.  With [titles] and [metadatas] given and serializable,
    [index_segments] builds the sections by position: entry [i] pairs
    text [i] with title [i] and the serialized metadata [i], so the order
    of [texts] is kept, and the list stops at the shortest of the three
    sequences (surplus texts, titles or metadata are dropped silently). *)
Theorem index_segments_by_position :
  forall env doc_id texts titles metadatas doc_metadata doc_title,
    Forall (fun md => exists s, json_dumps env md = Ret s) metadatas ->
    (truthy doc_metadata = true -> exists mdj, json_dumps env doc_metadata = Ret mdj) ->
    exists d sections,
      build_document env doc_id texts (Some titles) (Some metadatas) doc_metadata doc_title
        = Ret (PDict d) /\
      lookup "documentId" d = Some (PStr doc_id) /\
      lookup "section" d = Some (PList sections) /\
      length sections = Nat.min (length texts) (Nat.min (length titles) (length metadatas)) /\
      forall i text title md s,
        nth_error texts i = Some text ->
        nth_error titles i = Some title ->
        nth_error metadatas i = Some md ->
        json_dumps env md = Ret s ->
        nth_error sections i = Some (section_entry text title s).
Proof.
  intros env doc_id texts titles metadatas doc_metadata doc_title Hall Hmd.
  destruct (sections_zip3 env texts titles metadatas Hall) as (sections & Hr & Hlen & Hnth).
  unfold build_document. rewrite Hr. cbn [rbind].
  destruct (truthy doc_metadata) eqn:Htr.
  - destruct (Hmd eq_refl) as (mdj & Hj). rewrite Hj. cbn [rbind].
    eexists. exists sections. split; [reflexivity|].
    destruct doc_title as [t|]; [destruct (0 <? String.length t)%nat|];
      (repeat split; try reflexivity; assumption).
  - eexists. exists sections. split; [reflexivity|].
    destruct doc_title as [t|]; [destruct (0 <? String.length t)%nat|];
      (repeat split; try reflexivity; assumption).
Qed.

Lemma index_segments_by_position_witness :
  let env := pdf_env (1 # 1) (always 200 (status_body "OK" [])) in
  exists d sections,
    build_document env "doc-1" ["a"; "b"; "c"] (Some ["t1"; "t2"])
      (Some [PDict []; PDict []; PDict []]) (PDict []) None = Ret (PDict d) /\
    lookup "section" d = Some (PList sections) /\
    length sections = 2%nat /\
    nth_error sections 1 = Some (section_entry "b" "t2" "{}").
Proof.
  intros env.
  destruct (index_segments_by_position env "doc-1" ["a"; "b"; "c"] ["t1"; "t2"]
              [PDict []; PDict []; PDict []] (PDict []) None)
    as (d & sections & Hb & _ & Hs & Hlen & Hnth).
  - repeat constructor; exists "{}"; reflexivity.
  - discriminate.
  - exists d, sections. repeat split; try assumption.
    exact (Hnth 1%nat "b" "t2" (PDict []) "{}" eq_refl eq_refl eq_refl eq_refl).
Defined.

(** X9.  [index_segments] does not catch a serialization error of the
    document metadata: it raises it before [index_document] is entered,
    so no request is sent for the document. *)
Theorem index_segments_bad_metadata :
  forall env self doc_id texts doc_metadata doc_title empty_md e w,
    (texts <> [] -> json_dumps env (PDict []) = Ret empty_md) ->
    truthy doc_metadata = true ->
    json_dumps env doc_metadata = Raise e ->
    index_segments env self doc_id texts None None doc_metadata doc_title w
    = (Raise e,
       add_invoked [C_index_segments doc_id texts None None doc_metadata doc_title] w).
Proof.
  intros env self doc_id texts doc_metadata doc_title empty_md e w Hempty Htr He.
  unfold index_segments, build_document.
  rewrite (default_sections env empty_md texts Hempty). cbn [rbind].
  rewrite Htr, He. reflexivity.
Qed.

Lemma index_segments_bad_metadata_witness :
  let env := quiet_env (always 200 (status_body "OK" []))
               (fun v => match v with PDict [] => Ret "{}" | _ => Raise TypeError end) in
  let md := PDict [("when", PNone)] in
  index_segments env (demo_indexer true false) "doc-1" ["a"] None None md None empty_world
  = (Raise TypeError,
     add_invoked [C_index_segments "doc-1" ["a"] None None md None] empty_world).
Proof.
  intros env md.
  exact (index_segments_bad_metadata env (demo_indexer true false) "doc-1" ["a"] md None
           "{}" TypeError empty_world (fun _ => eq_refl) eq_refl eq_refl).
Defined.

(** ** Running a method step by step *)

Lemma bind_run :
  forall S A B (m : M S A) (k : A -> M S B) s,
    bind m k s = match m s with
                 | (Ret a, s') => k a s'
                 | (Raise e, s') => (Raise e, s')
                 end.
Proof. reflexivity. Qed.

Lemma try_except_run :
  forall S A (m : M S A) h s,
    try_except m h s = match m s with
                       | (Raise e, s') => h e s'
                       | r => r
                       end.
Proof. reflexivity. Qed.

Lemma try_finally_run :
  forall S A (m : M S A) f s,
    try_finally m f s =
      match m s with
      | (r, s') => match f s' with
                   | (Ret _, s'') => (r, s'')
                   | (Raise e, s'') => (Raise e, s'')
                   end
      end.
Proof. reflexivity. Qed.

Lemma ret_run : forall S A (a : A) (s : S), ret a s = (Ret a, s).
Proof. reflexivity. Qed.

Lemma raise_run : forall S A e (s : S), raise (A:=A) e s = (Raise e, s).
Proof. reflexivity. Qed.

Lemma lift_run : forall S A (r : Result A) (s : S), lift r s = (r, s).
Proof. reflexivity. Qed.

Lemma enter_run : forall c w, enter c w = (Ret tt, add_invoked [c] w).
Proof. reflexivity. Qed.

Lemma log_run : forall lvl msg w, log lvl msg w = (Ret tt, add_logs [(lvl, msg)] w).
Proof. reflexivity. Qed.

Lemma io_run :
  forall A ev (ask : History -> Result A) w, io ev ask w = (ask (history w), record ev w).
Proof. reflexivity. Qed.

Lemma pw_run :
  forall env op w, pw env op w = (pw_call env (history w) op, record (IoBrowser op) w).
Proof. reflexivity. Qed.

Lemma on_world_run :
  forall L A (m : M World A) w (l : L),
    on_world m (w, l) = (fst (m w), (snd (m w), l)).
Proof. intros. unfold on_world. simpl. destruct (m w). reflexivity. Qed.

Lemma assign_run :
  forall L (f : L -> L) w l, assign f (w, l) = (Ret tt, (w, f l)).
Proof. reflexivity. Qed.

Lemma locals_run : forall L w (l : L), locals (w, l) = (Ret l, (w, l)).
Proof. reflexivity. Qed.

Lemma goto_with_timeout_run :
  forall env self url w,
    goto_with_timeout env self url w =
      (snd (pw_goto env (history w) url),
       record (IoBrowser (Goto url (Some (timeout self * 1000)) None)) w).
Proof. reflexivity. Qed.

Lemma history_record : forall ev w, history (record ev w) = history w ++ [ev].
Proof. reflexivity. Qed.
Lemma history_add_invoked : forall cs w, history (add_invoked cs w) = history w.
Proof. reflexivity. Qed.
Lemma history_add_logs : forall ls w, history (add_logs ls w) = history w.
Proof. reflexivity. Qed.
Lemma logs_record : forall ev w, logs (record ev w) = logs w.
Proof. reflexivity. Qed.
Lemma logs_add_invoked : forall cs w, logs (add_invoked cs w) = logs w.
Proof. reflexivity. Qed.
Lemma logs_add_logs : forall ls w, logs (add_logs ls w) = logs w ++ ls.
Proof. reflexivity. Qed.
Lemma invoked_record : forall ev w, invoked (record ev w) = invoked w.
Proof. reflexivity. Qed.
Lemma invoked_add_invoked : forall cs w, invoked (add_invoked cs w) = invoked w ++ cs.
Proof. reflexivity. Qed.
Lemma invoked_add_logs : forall ls w, invoked (add_logs ls w) = invoked w.
Proof. reflexivity. Qed.

(** One step of a run: expose the next action, then its outcome. *)
Ltac mstep :=
  first
    [ rewrite bind_run
    | rewrite try_finally_run
    | rewrite try_except_run
    | rewrite on_world_run
    | rewrite pw_run
    | rewrite io_run
    | rewrite goto_with_timeout_run
    | rewrite assign_run
    | rewrite locals_run
    | rewrite enter_run
    | rewrite log_run
    | rewrite ret_run
    | rewrite raise_run
    | rewrite lift_run ];
  cbv beta iota;
  cbn [fst snd fl_page fl_context fl_content fl_out_url fl_links].

Create Rewrite HintDb world.
#[local] Hint Rewrite history_record history_add_invoked history_add_logs
  logs_record logs_add_invoked logs_add_logs
  invoked_record invoked_add_invoked invoked_add_logs : world.

Ltac world_eq :=
  autorewrite with world;
  cbn [map]; rewrite <- ?app_assoc; cbn [app]; try reflexivity.

(** ** The browser methods *)

(** X10.  When every bookkeeping call on the browser succeeds and the page
    loads, [fetch_page_contents] returns the rendered content, the final
    URL and the non-empty [href]s of the anchors in page order; the page
    and then the context are closed last. *)
Theorem fetch_page_contents_loaded :
  forall env self url w content out_url hrefs,
    (forall h op, pw_call env h op = Ret tt) ->
    (forall h, snd (pw_goto env h url) = Ret tt) ->
    (forall h, pw_content env h = Ret content) ->
    (forall h, pw_url env h = Ret out_url) ->
    (forall h, pw_links env h = Ret hrefs) ->
    exists w',
      fetch_page_contents env self url false w
        = (Ret (content, out_url, kept_hrefs hrefs), w') /\
      history w' = history w ++
        map IoBrowser [NewContext; NewPage; SetExtraHttpHeaders; RouteImages;
                       Goto url (Some (timeout self * 1000)) None;
                       PageContent; PageUrl; QueryLinks; ClosePage; CloseContext] /\
      logs w' = logs w.
Proof.
  intros env self url w content out_url hrefs Hcall Hgoto Hcontent Hurl Hlinks.
  unfold fetch_page_contents, fetch_try, fetch_finally.
  repeat (mstep; rewrite ?Hcall, ?Hgoto, ?Hcontent, ?Hurl, ?Hlinks).
  eexists. split; [reflexivity|]. split; world_eq.
Qed.

Lemma fetch_page_contents_loaded_witness :
  let env := set_pw_links (fun _ => Ret [Some "/a"; None; Some ""; Some "/b"])
               (page_env (Some "<html></html>")) in
  let self := demo_indexer true false in
  exists w',
    fetch_page_contents env self "http://a.example/" false empty_world
      = (Ret (Some "<html></html>", "http://resolved.example/",
              kept_hrefs [Some "/a"; None; Some ""; Some "/b"]), w') /\
    history w' = [] ++
      map IoBrowser [NewContext; NewPage; SetExtraHttpHeaders; RouteImages;
                     Goto "http://a.example/" (Some (timeout self * 1000)) None;
                     PageContent; PageUrl; QueryLinks; ClosePage; CloseContext] /\
    logs w' = [].
Proof.
  intros env self.
  exact (fetch_page_contents_loaded env self "http://a.example/" empty_world
           (Some "<html></html>") "http://resolved.example/"
           [Some "/a"; None; Some ""; Some "/b"]
           (fun _ _ => eq_refl) (fun _ => eq_refl) (fun _ => eq_refl) (fun _ => eq_refl)
           (fun _ => eq_refl)).
Defined.

Example kept_hrefs_ex :
  kept_hrefs [Some "/a"; None; Some ""; Some "/b"] = ["/a"; "/b"].
Proof. reflexivity. Qed.

(** X11.  When the navigation times out, [fetch_page_contents] does not
    raise: it logs the timeout and returns the empty content, the URL it
    was given and no links; the browser is not asked whether it is still
    connected, and the page and the context are closed. *)
Theorem fetch_page_contents_timeout :
  forall env self url w,
    (forall h op, pw_call env h op = Ret tt) ->
    (forall h, snd (pw_goto env h url) = Raise PlaywrightTimeoutError) ->
    exists w',
      fetch_page_contents env self url false w = (Ret (Some "", url, []), w') /\
      history w' = history w ++
        map IoBrowser [NewContext; NewPage; SetExtraHttpHeaders; RouteImages;
                       Goto url (Some (timeout self * 1000)) None;
                       ClosePage; CloseContext] /\
      logs w' = logs w ++ [(INFO, [Lit "Page loading timed out for "; VStr url])].
Proof.
  intros env self url w Hcall Hgoto.
  unfold fetch_page_contents, fetch_try, fetch_finally.
  repeat (mstep; rewrite ?Hcall, ?Hgoto).
  unfold fetch_except. repeat (mstep; rewrite ?Hcall).
  eexists. split; [reflexivity|]. split; world_eq.
Qed.

Lemma fetch_page_contents_timeout_witness :
  let env := set_pw_goto (fun _ _ => (false, Raise PlaywrightTimeoutError))
               (page_env (Some "<html></html>")) in
  let self := demo_indexer true false in
  exists w',
    fetch_page_contents env self "http://slow.example/" false empty_world
      = (Ret (Some "", "http://slow.example/", []), w') /\
    history w' = [] ++
      map IoBrowser [NewContext; NewPage; SetExtraHttpHeaders; RouteImages;
                     Goto "http://slow.example/" (Some (timeout self * 1000)) None;
                     ClosePage; CloseContext] /\
    logs w' = [] ++ [(INFO, [Lit "Page loading timed out for "; VStr "http://slow.example/"])].
Proof.
  intros env self.
  exact (fetch_page_contents_timeout env self "http://slow.example/" empty_world
           (fun _ _ => eq_refl) (fun _ => eq_refl)).
Defined.

(** X12.  When the navigation fails with any other exception and the
    browser reports that it is no longer connected, [fetch_page_contents]
    launches a new browser before it closes the page and the context, and
    still returns the empty content instead of raising. *)
Theorem fetch_page_contents_relaunch :
  forall env self url w e,
    (forall h op, pw_call env h op = Ret tt) ->
    (forall h, snd (pw_goto env h url) = Raise e) ->
    e <> PlaywrightTimeoutError ->
    (forall h, pw_is_connected env h = Ret false) ->
    exists w',
      fetch_page_contents env self url false w = (Ret (Some "", url, []), w') /\
      history w' = history w ++
        map IoBrowser [NewContext; NewPage; SetExtraHttpHeaders; RouteImages;
                       Goto url (Some (timeout self * 1000)) None;
                       IsConnected; LaunchFirefox; ClosePage; CloseContext].
Proof.
  intros env self url w e Hcall Hgoto Hne Hconn.
  unfold fetch_page_contents, fetch_try, fetch_finally.
  repeat (mstep; rewrite ?Hcall, ?Hgoto).
  assert (He : forall s,
            fetch_except env url e s =
            (on_world (L:=FetchLocals)
               (log INFO [Lit "Page loading failed for "; VStr url;
                          Lit " with exception '"; VExn e; Lit "'"]) ;;;
             connected <- on_world (io (IoBrowser IsConnected) (pw_is_connected env)) ;;
             if negb connected then on_world (pw env LaunchFirefox) else ret tt) s).
  { intros s. destruct e; try reflexivity. contradiction. }
  rewrite He.
  repeat (mstep; rewrite ?Hcall, ?Hconn; cbn [negb]).
  eexists. split; [reflexivity|]. world_eq.
Qed.

Lemma fetch_page_contents_relaunch_witness :
  let env := set_pw_is_connected (fun _ => Ret false)
               (set_pw_goto (fun _ _ => (false, Raise (OtherError "crashed")))
                  (page_env (Some "<html></html>"))) in
  let self := demo_indexer true false in
  exists w',
    fetch_page_contents env self "http://a.example/" false empty_world
      = (Ret (Some "", "http://a.example/", []), w') /\
    history w' = [] ++
      map IoBrowser [NewContext; NewPage; SetExtraHttpHeaders; RouteImages;
                     Goto "http://a.example/" (Some (timeout self * 1000)) None;
                     IsConnected; LaunchFirefox; ClosePage; CloseContext].
Proof.
  intros env self.
  refine (fetch_page_contents_relaunch env self "http://a.example/" empty_world
            (OtherError "crashed") (fun _ _ => eq_refl) (fun _ => eq_refl) _
            (fun _ => eq_refl)).
  discriminate.
Defined.

Section Keeps.

Context {S : Type} (P : S -> Prop).

Lemma keeps_ret : forall A (a : A), keeps P (ret a).
Proof. intros A a s r s' H E. inversion E; subst. exact H. Qed.

Lemma keeps_bind :
  forall A B (m : M S A) (k : A -> M S B),
    keeps P m -> (forall a, keeps P (k a)) -> keeps P (bind m k).
Proof.
  intros A B m k Hm Hk s r s' H E. unfold bind in E.
  destruct (m s) as [[a|e] s1] eqn:F.
  - eapply Hk; [eapply Hm; eassumption | eassumption].
  - inversion E; subst. eapply Hm; eassumption.
Qed.

Lemma keeps_try_except :
  forall A (m : M S A) h,
    keeps P m -> (forall e, keeps P (h e)) -> keeps P (try_except m h).
Proof.
  intros A m h Hm Hh s r s' H E. unfold try_except in E.
  destruct (m s) as [[a|e] s1] eqn:F.
  - inversion E; subst. eapply Hm; eassumption.
  - eapply Hh; [eapply Hm; eassumption | eassumption].
Qed.

End Keeps.

Lemma keeps_on_world :
  forall A (m : M World A), keeps context_set (on_world m).
Proof.
  intros A m [w l] r [w' l'] H E. unfold on_world in E. simpl in E.
  destruct (m w) as [r1 w1]. inversion E; subst. exact H.
Qed.

Lemma keeps_assign :
  forall f : FetchLocals -> FetchLocals,
    (forall l, fl_context l = true -> fl_context (f l) = true) ->
    keeps context_set (assign f).
Proof.
  intros f Hf [w l] r [w' l'] H E. inversion E; subst. apply Hf. exact H.
Qed.

Ltac keeps_steps :=
  repeat first
    [ apply keeps_bind; [|intros ?]
    | apply keeps_on_world
    | apply keeps_assign; intros ? ?; simpl; assumption
    | apply keeps_ret
    | match goal with
      | |- keeps _ (if ?b then _ else _) => destruct b
      | |- keeps _ (match ?x with _ => _ end) => destruct x
      end ].

(** Once the context exists, the rest of the [try] and the handlers leave
    the local [context] set. *)
Lemma fetch_try_context :
  forall env self url debug w r s',
    pw_call env (history w) NewContext = Ret tt ->
    try_except (fetch_try env self url debug) (fetch_except env url)
      (w, mkFetchLocals false false (Some "") url []) = (r, s') ->
    context_set s'.
Proof.
  intros env self url debug w r s' Hctx E.
  rewrite try_except_run in E. unfold fetch_try in E.
  rewrite bind_run, on_world_run, pw_run in E. cbn [fst snd] in E.
  rewrite Hctx in E. cbv beta iota in E.
  rewrite bind_run, assign_run in E. cbv beta iota in E.
  cbn [fl_page fl_content fl_out_url fl_links] in E.
  match type of E with
  | context [match ?m ?s0 with _ => _ end] =>
      assert (K : keeps context_set m) by keeps_steps;
      destruct (m s0) as [[u|e] s1] eqn:T
  end.
  - inversion E; subst. eapply K; [|exact T]. reflexivity.
  - assert (C1 : context_set s1) by (eapply K; [|exact T]; reflexivity).
    assert (Kx : keeps context_set (fetch_except env url e))
      by (unfold fetch_except; keeps_steps).
    eapply Kx; eassumption.
Qed.

(** X13.  If closing the page does not fail, then on every exit path of
    [fetch_page_contents] on which the browsing context was created, with
    a result or with an exception, the last interaction is the closing of
    that context. *)
Theorem fetch_page_contents_closes_context :
  forall env self url debug w r w',
    (forall h, pw_call env h ClosePage = Ret tt) ->
    pw_call env (history w) NewContext = Ret tt ->
    fetch_page_contents env self url debug w = (r, w') ->
    exists h, history w' = h ++ [IoBrowser CloseContext].
Proof.
  intros env self url debug w r w' Hclose Hctx E.
  unfold fetch_page_contents in E. rewrite bind_run, enter_run in E. cbv beta iota in E.
  rewrite try_finally_run in E.
  match type of E with
  | context [try_except ?m ?h ?s0] =>
      destruct (try_except m h s0) as [r1 [w1 l1]] eqn:T
  end.
  apply fetch_try_context in T; [|exact Hctx].
  unfold context_set in T. cbn [snd] in T.
  unfold fetch_finally in E.
  rewrite bind_run, locals_run in E. cbv beta iota in E. rewrite T in E.
  rewrite bind_run in E.
  destruct (fl_page l1).
  - rewrite on_world_run, pw_run in E. cbn [fst snd] in E. rewrite Hclose in E.
    cbv beta iota in E. rewrite on_world_run, pw_run in E. cbn [fst snd] in E.
    destruct (pw_call env _ CloseContext); destruct r1; inversion E; subst;
      rewrite history_record; eexists; reflexivity.
  - rewrite ret_run in E. cbv beta iota in E.
    rewrite on_world_run, pw_run in E. cbn [fst snd] in E.
    destruct (pw_call env _ CloseContext); destruct r1; inversion E; subst;
      rewrite history_record; eexists; reflexivity.
Qed.

Lemma fetch_page_contents_closes_context_witness :
  let env := set_pw_goto (fun _ _ => (false, Raise (OtherError "crashed")))
               (page_env (Some "<html></html>")) in
  let self := demo_indexer true false in
  exists h,
    history (snd (fetch_page_contents env self "http://a.example/" true empty_world))
    = h ++ [IoBrowser CloseContext].
Proof.
  intros env self.
  exact (fetch_page_contents_closes_context env self "http://a.example/" true empty_world
           (fst (fetch_page_contents env self "http://a.example/" true empty_world))
           (snd (fetch_page_contents env self "http://a.example/" true empty_world))
           (fun _ => eq_refl) eq_refl eq_refl).
Defined.

(** X14.  [fetch_page_contents] contains every failure of the page load:
    as long as closing the page and the context, asking whether the
    browser is connected and launching a browser do not fail themselves,
    it returns a result and never raises, whatever the other browser calls
    do. *)
Theorem fetch_page_contents_never_raises :
  forall env self,
    (forall h, pw_call env h ClosePage = Ret tt) ->
    (forall h, pw_call env h CloseContext = Ret tt) ->
    (forall h, pw_call env h LaunchFirefox = Ret tt) ->
    (forall h e, pw_is_connected env h <> Raise e) ->
    forall url debug w,
    exists res w', fetch_page_contents env self url debug w = (Ret res, w').
Proof.
  intros env self Hpage Hctx Hlaunch Hconn url debug w.
  assert (Hfin : forall s, exists s', fetch_finally env s = (Ret tt, s')).
  { intros [w1 l1]. unfold fetch_finally.
    rewrite bind_run, locals_run. cbv beta iota. rewrite bind_run.
    destruct (fl_page l1).
    - rewrite on_world_run, pw_run. cbn [fst snd]. rewrite Hpage. cbv beta iota.
      destruct (fl_context l1).
      + rewrite on_world_run, pw_run. cbn [fst snd]. rewrite Hctx. eauto.
      + rewrite ret_run. eauto.
    - rewrite ret_run. cbv beta iota.
      destruct (fl_context l1).
      + rewrite on_world_run, pw_run. cbn [fst snd]. rewrite Hctx. eauto.
      + rewrite ret_run. eauto. }
  assert (Hexc : forall e s, exists s', fetch_except env url e s = (Ret tt, s')).
  { intros e [w1 l1].
    assert (Hother : exists s',
              (on_world (L:=FetchLocals)
                 (log INFO [Lit "Page loading failed for "; VStr url;
                            Lit " with exception '"; VExn e; Lit "'"]) ;;;
               connected <- on_world (io (IoBrowser IsConnected) (pw_is_connected env)) ;;
               if negb connected then on_world (pw env LaunchFirefox) else ret tt) (w1, l1)
              = (Ret tt, s')).
    { rewrite bind_run, on_world_run, log_run. cbn [fst snd]. cbv beta iota.
      rewrite bind_run, on_world_run, io_run. cbn [fst snd].
      destruct (pw_is_connected env _) as [[|]|e'] eqn:C; cbv beta iota; cbn [negb].
      - rewrite ret_run. eauto.
      - rewrite on_world_run, pw_run. cbn [fst snd]. rewrite Hlaunch. eauto.
      - exfalso. exact (Hconn _ _ C). }
    destruct e; try exact Hother.
    unfold fetch_except. rewrite on_world_run, log_run. cbn [fst snd]. eauto. }
  unfold fetch_page_contents. rewrite bind_run, enter_run. cbv beta iota.
  rewrite try_finally_run, try_except_run.
  match goal with
  | |- context [fetch_try env self url debug ?s0] =>
      destruct (fetch_try env self url debug s0) as [[u|e] s1]
  end.
  - destruct (Hfin s1) as ([w2 l2] & F). rewrite F. eauto.
  - destruct (Hexc e s1) as (s2 & X). rewrite X.
    destruct (Hfin s2) as ([w3 l3] & F). rewrite F. eauto.
Qed.

Lemma fetch_page_contents_never_raises_witness :
  let env := set_pw_call
               (fun _ op => match op with NewPage => Raise (OtherError "no page") | _ => Ret tt end)
               (page_env (Some "<html></html>")) in
  exists res w',
    fetch_page_contents env (demo_indexer true false) "http://a.example/" false empty_world
    = (Ret res, w').
Proof.
  intros env.
  refine (fetch_page_contents_never_raises env (demo_indexer true false)
            (fun _ => eq_refl) (fun _ => eq_refl) (fun _ => eq_refl) _
            "http://a.example/" false empty_world).
  intros h e. discriminate.
Defined.

(** X15.  The [finally] block closes the page first: when that fails after
    a successful load, [fetch_page_contents] raises the failure, the
    content just fetched is lost, and the context is never closed. *)
Theorem fetch_page_contents_page_close_fails :
  forall env self url w content out_url hrefs e,
    (forall h op, op <> ClosePage -> pw_call env h op = Ret tt) ->
    (forall h, pw_call env h ClosePage = Raise e) ->
    (forall h, snd (pw_goto env h url) = Ret tt) ->
    (forall h, pw_content env h = Ret content) ->
    (forall h, pw_url env h = Ret out_url) ->
    (forall h, pw_links env h = Ret hrefs) ->
    exists w',
      fetch_page_contents env self url false w = (Raise e, w') /\
      history w' = history w ++
        map IoBrowser [NewContext; NewPage; SetExtraHttpHeaders; RouteImages;
                       Goto url (Some (timeout self * 1000)) None;
                       PageContent; PageUrl; QueryLinks; ClosePage].
Proof.
  intros env self url w content out_url hrefs e Hcall Hpage Hgoto Hcontent Hurl Hlinks.
  unfold fetch_page_contents, fetch_try, fetch_finally.
  repeat (mstep;
          rewrite ?Hpage, ?Hgoto, ?Hcontent, ?Hurl, ?Hlinks;
          rewrite ?(Hcall _ NewContext), ?(Hcall _ NewPage), ?(Hcall _ SetExtraHttpHeaders),
                  ?(Hcall _ RouteImages) by discriminate).
  eexists. split; [reflexivity|]. world_eq.
Qed.

Lemma fetch_page_contents_page_close_fails_witness :
  let env := set_pw_call
               (fun _ op => match op with ClosePage => Raise (OtherError "closed") | _ => Ret tt end)
               (page_env (Some "<html></html>")) in
  let self := demo_indexer true false in
  exists w',
    fetch_page_contents env self "http://a.example/" false empty_world
      = (Raise (OtherError "closed"), w') /\
    history w' = [] ++
      map IoBrowser [NewContext; NewPage; SetExtraHttpHeaders; RouteImages;
                     Goto "http://a.example/" (Some (timeout self * 1000)) None;
                     PageContent; PageUrl; QueryLinks; ClosePage].
Proof.
  intros env self.
  refine (fetch_page_contents_page_close_fails env self "http://a.example/" empty_world
            (Some "<html></html>") "http://resolved.example/" [] (OtherError "closed")
            _ (fun _ => eq_refl) (fun _ => eq_refl) (fun _ => eq_refl) (fun _ => eq_refl)
            (fun _ => eq_refl)).
  intros h op Hop. destruct op; try reflexivity. contradiction.
Defined.

(** X16.  [url_triggers_download] returns whether a download event fired
    during the navigation, whether or not the navigation itself raised:
    the exception of [goto] is swallowed, and the page and the context are
    closed afterwards. *)
Theorem url_triggers_download_flag :
  forall env url w,
    (forall h op, pw_call env h op = Ret tt) ->
    let before := history w ++
      map IoBrowser [NewContext; NewPage; SetExtraHttpHeaders; OnDownload] in
    exists w',
      url_triggers_download env url w = (Ret (fst (pw_goto env before url)), w') /\
      history w' = before ++
        map IoBrowser [Goto url None (Some "domcontentloaded"); ClosePage; CloseContext].
Proof.
  intros env url w Hcall before. subst before.
  unfold url_triggers_download.
  repeat (mstep; rewrite ?Hcall).
  unfold goto_watching_download. cbv beta.
  repeat (mstep; rewrite ?Hcall).
  autorewrite with world. cbn [map]. rewrite <- ?app_assoc. cbn [app].
  eexists. split; [reflexivity|]. world_eq.
Qed.

Lemma url_triggers_download_flag_witness :
  let env := set_pw_goto (fun _ _ => (true, Raise (OtherError "Download is starting")))
               (page_env (Some "")) in
  exists w',
    url_triggers_download env "http://a.example/f.pdf" empty_world = (Ret true, w') /\
    history w' =
      ([] ++ map IoBrowser [NewContext; NewPage; SetExtraHttpHeaders; OnDownload]) ++
      map IoBrowser [Goto "http://a.example/f.pdf" None (Some "domcontentloaded");
                     ClosePage; CloseContext].
Proof.
  intros env.
  exact (url_triggers_download_flag env "http://a.example/f.pdf" empty_world
           (fun _ _ => eq_refl)).
Defined.

(** ** [index_url] *)

Lemma with_local_run :
  forall L A (l : L) (m : M (World * L) A) w,
    with_local l m w = (fst (m (w, l)), fst (snd (m (w, l)))).
Proof. intros. unfold with_local. destruct (m (w, l)). reflexivity. Qed.

(** The run of [index_url] up to the branch on the download test. *)
Lemma index_url_start :
  forall env self url metadata w url' triggers w1,
    index_nat (split "#" url) 0 = Ret url' ->
    url_triggers_download env url' (add_invoked [C_index_url url metadata] w)
      = (Ret triggers, w1) ->
    index_url env self url metadata w =
      (branch <-
         (if triggers then
            saved <- download env url' ;;
            if saved then parse_download env self url' else ret (Return false)
          else
            with_local url' (try_except (crawl env self) crawl_failed)) ;;
       match branch with
       | Return b => ret b
       | Extracted url parts extracted_title =>
           index_segments env self (slugify env url) parts None None metadata extracted_title
       end) w1.
Proof.
  intros env self url metadata w url' triggers w1 Hsplit Hdl.
  unfold index_url. rewrite bind_run, enter_run. cbv beta iota.
  rewrite bind_run, lift_run, Hsplit. cbv beta iota.
  rewrite bind_run, Hdl. reflexivity.
Qed.


(** The run of [crawl] once the page has been fetched with enough content. *)
Lemma crawl_fetched :
  forall env self url w content actual_url links w2,
    fetch_page_contents env self url false w = (Ret (Some content, actual_url, links), w2) ->
    (3 <= len content)%nat ->
    crawl env self (w, url) =
      (known <- on_world get_detected_language ;;
       language <-
         match known with
         | Some l => ret l
         | None =>
             body_text <- lift (soup_body_text env content) ;;
             l <- lift (detect_language env body_text) ;;
             on_world (set_detected_language l) ;;;
             on_world (log INFO [Lit "The detected language is "; VStr l]) ;;;
             ret l
         end ;;
       assign (fun _ => actual_url) ;;;
       url <- locals ;;
       te <- lift (get_content_and_title env content url language (remove_code self)) ;;
       on_world (log INFO [Lit "retrieving content took "; Lit " seconds"]) ;;;
       ret (Extracted url [fst te] (snd te))) (w2, url).
Proof.
  intros env self url w content actual_url links w2 Hfetch Hlen.
  unfold crawl. rewrite bind_run, locals_run. cbv beta iota.
  rewrite bind_run, on_world_run, Hfetch. cbn [fst snd]. cbv beta iota.
  assert (Hl : (len content <? 3)%nat = false) by (apply Nat.ltb_ge; exact Hlen).
  rewrite Hl. reflexivity.
Qed.



Example index_url_crawl_failure_before_redirect :
  let env := set_soup_body_text (fun _ => Raise AttributeError)
               (page_env (Some "<html></html>")) in
  let run := index_url env (demo_indexer true false) "http://a.example/p#x" (PDict [])
               empty_world in
  fst run = Ret false /\
  logs (snd run) = failed_to_crawl "http://a.example/p" AttributeError.
Proof. split; reflexivity. Qed.

(** X18.  On the path without download, once the language is known, a
    page of three characters or more is indexed under the id
    [slugify(actual_url)], the URL the browser ended on and not the one
    asked for, as one segment holding the extracted text, with the
    extracted title; the language is not detected again. *)
Theorem index_url_resolved_identity :
  forall env self url metadata w url' w1 content actual_url links w2 language text title,
    index_nat (split "#" url) 0 = Ret url' ->
    url_triggers_download env url' (add_invoked [C_index_url url metadata] w)
      = (Ret false, w1) ->
    fetch_page_contents env self url' false w1 = (Ret (Some content, actual_url, links), w2) ->
    (3 <= len content)%nat ->
    detected_language w2 = Some language ->
    get_content_and_title env content actual_url language (remove_code self)
      = Ret (text, title) ->
    index_url env self url metadata w
    = index_segments env self (slugify env actual_url) [text] None None metadata title
        (add_logs retrieved w2).
Proof.
  intros env self url metadata w url' w1 content actual_url links w2 language text title
         Hsplit Hdl Hfetch Hlen Hlang Hget.
  rewrite (index_url_start _ _ _ _ _ _ _ _ Hsplit Hdl).
  rewrite bind_run, with_local_run, try_except_run.
  rewrite (crawl_fetched _ _ _ _ _ _ _ _ Hfetch Hlen).
  rewrite bind_run, on_world_run. unfold get_detected_language. cbn [fst snd].
  rewrite Hlang. cbv beta iota.
  rewrite bind_run, ret_run. cbv beta iota.
  rewrite bind_run, assign_run. cbv beta iota.
  rewrite bind_run, locals_run. cbv beta iota.
  rewrite bind_run, lift_run, Hget. cbv beta iota.
  rewrite bind_run, on_world_run, log_run. cbn [fst snd]. cbv beta iota.
  rewrite ret_run. cbn [fst snd]. cbv beta iota.
  reflexivity.
Qed.

(** X19.  The first page seen sets the language: with no language
    detected yet and a page of three characters or more, the body text of
    the page is handed to [detect_language], the answer is stored in
    [detected_language] and logged, and the extraction uses it. *)
Theorem crawl_detects_language :
  forall env self url w content actual_url links w2 body_text language text title,
    fetch_page_contents env self url false w = (Ret (Some content, actual_url, links), w2) ->
    (3 <= len content)%nat ->
    detected_language w2 = None ->
    soup_body_text env content = Ret body_text ->
    detect_language env body_text = Ret language ->
    get_content_and_title env content actual_url language (remove_code self)
      = Ret (text, title) ->
    exists w',
      crawl env self (w, url)
        = (Ret (Extracted actual_url [text] title), (w', actual_url)) /\
      detected_language w' = Some language /\
      history w' = history w2 /\
      logs w' = logs w2 ++
        [(INFO, [Lit "The detected language is "; VStr language])] ++ retrieved.
Proof.
  intros env self url w content actual_url links w2 body_text language text title
         Hfetch Hlen Hnone Hsoup Hdetect Hget.
  rewrite (crawl_fetched _ _ _ _ _ _ _ _ Hfetch Hlen).
  rewrite bind_run, on_world_run. unfold get_detected_language. cbn [fst snd].
  rewrite Hnone. cbv beta iota.
  rewrite bind_run, bind_run, lift_run, Hsoup. cbv beta iota.
  rewrite bind_run, lift_run, Hdetect. cbv beta iota.
  rewrite bind_run, on_world_run. unfold set_detected_language. cbn [fst snd].
  cbv beta iota.
  rewrite bind_run, on_world_run, log_run. cbn [fst snd]. cbv beta iota.
  rewrite ret_run. cbv beta iota.
  rewrite bind_run, assign_run. cbv beta iota.
  rewrite bind_run, locals_run. cbv beta iota.
  rewrite bind_run, lift_run, Hget. cbv beta iota.
  rewrite bind_run, on_world_run, log_run. cbn [fst snd]. cbv beta iota.
  rewrite ret_run.
  eexists. split; [reflexivity|].
  split; [reflexivity|]. split; [reflexivity|].
  cbn. rewrite <- app_assoc. reflexivity.
Qed.

Lemma index_url_resolved_identity_witness :
  let env := page_env (Some "<html>hello</html>") in
  let self := demo_indexer true false in
  let w := mkWorld [] [] [] (Some "en") in
  let w1 := snd (url_triggers_download env "http://a.example/p"
                   (add_invoked [C_index_url "http://a.example/p#x" (PDict [])] w)) in
  let w2 := snd (fetch_page_contents env self "http://a.example/p" false w1) in
  index_url env self "http://a.example/p#x" (PDict []) w
  = index_segments env self (slugify env "http://resolved.example/") ["<html>hello</html>"]
      None None (PDict []) None (add_logs retrieved w2).
Proof.
  intros env self w w1 w2.
  apply (index_url_resolved_identity env self "http://a.example/p#x" (PDict []) w
           "http://a.example/p" w1 "<html>hello</html>" "http://resolved.example/" [] w2
           "en" "<html>hello</html>" None);
    try (vm_compute; reflexivity).
  vm_compute. lia.
Defined.

Lemma crawl_detects_language_witness :
  let env := page_env (Some "<html>hello</html>") in
  let self := demo_indexer true false in
  let w2 := snd (fetch_page_contents env self "http://a.example/p" false empty_world) in
  exists w',
    crawl env self (empty_world, "http://a.example/p")
      = (Ret (Extracted "http://resolved.example/" ["<html>hello</html>"] None),
         (w', "http://resolved.example/")) /\
    detected_language w' = Some "en" /\
    history w' = history w2 /\
    logs w' = logs w2 ++ [(INFO, [Lit "The detected language is "; VStr "en"])] ++ retrieved.
Proof.
  intros env self w2.
  apply (crawl_detects_language env self "http://a.example/p" empty_world
           "<html>hello</html>" "http://resolved.example/" [] w2 "<html>hello</html>" "en"
           "<html>hello</html>" None);
    try (vm_compute; reflexivity).
  vm_compute. lia.
Defined.

(** A page of two characters that take four bytes is too short for
    line 318: nothing is indexed. *)
Example index_url_two_characters :
  let run := index_url (page_env (Some "éé")) (demo_indexer true false)
               "http://a.example/p" (PDict []) empty_world in
  len "éé" = 2%nat /\ String.length "éé" = 4%nat /\
  fst run = Ret false /\
  invoked (snd run) =
    [C_index_url "http://a.example/p" (PDict []);
     C_url_triggers_download "http://a.example/p";
     C_fetch_page_contents "http://a.example/p"].
Proof. repeat split; reflexivity. Qed.

(** X20.  When the URL triggers a download and the GET is answered with a
    status other than 200, [index_url] logs the status and returns
    [False]: nothing is written to disk, parsed or indexed.  An exception
    of the GET itself is not caught. *)
Theorem index_url_download_refused :
  forall env self url metadata w url' w1,
    index_nat (split "#" url) 0 = Ret url' ->
    url_triggers_download env url' (add_invoked [C_index_url url metadata] w)
      = (Ret true, w1) ->
    (forall status body,
        session_get env (history w1) url' = Ret (status, body) ->
        status <> 200 ->
        index_url env self url metadata w
        = (Ret false, add_logs (failed_to_download status) (record (IoGet url') w1))) /\
    (forall e,
        session_get env (history w1) url' = Raise e ->
        index_url env self url metadata w = (Raise e, record (IoGet url') w1)).
Proof.
  intros env self url metadata w url' w1 Hsplit Hdl.
  rewrite (index_url_start _ _ _ _ _ _ _ _ Hsplit Hdl).
  split.
  - intros status body Hget Hst. apply Z.eqb_neq in Hst.
    rewrite bind_run, bind_run. unfold download.
    rewrite bind_run, io_run, Hget. cbv beta iota. rewrite Hst.
    rewrite bind_run, log_run. cbv beta iota. rewrite ret_run. cbv beta iota.
    rewrite ret_run. cbv beta iota. rewrite ret_run. reflexivity.
  - intros e Hget.
    rewrite bind_run, bind_run. unfold download.
    rewrite bind_run, io_run, Hget. reflexivity.
Qed.

Lemma index_url_download_refused_witness :
  let env := set_session_get (fun _ _ => Ret (404, Ret [])) download_env in
  let self := demo_indexer true false in
  let w1 := snd (url_triggers_download env "https://h.example/report.pdf"
                   (add_invoked [C_index_url "https://h.example/report.pdf" (PDict [])]
                      empty_world)) in
  index_url env self "https://h.example/report.pdf" (PDict []) empty_world
  = (Ret false,
     add_logs (failed_to_download 404) (record (IoGet "https://h.example/report.pdf") w1)).
Proof.
  intros env self w1.
  apply (proj1 (index_url_download_refused env self "https://h.example/report.pdf" (PDict [])
                  empty_world "https://h.example/report.pdf" w1
                  ltac:(vm_compute; reflexivity) ltac:(vm_compute; reflexivity))
           404 (Ret []));
    [vm_compute; reflexivity | discriminate].
Defined.

(** X21.  A downloaded URL ending in [.pdf] is parsed from the temporary
    file and indexed under [slugify(url)] (the URL without its fragment)
    with the title and texts that [_parse_pdf_file] returns; an exception
    of that parse is not caught by [index_url]. *)
Theorem index_url_pdf_download :
  forall env self url metadata w url' w1 w2,
    index_nat (split "#" url) 0 = Ret url' ->
    url_triggers_download env url' (add_invoked [C_index_url url metadata] w)
      = (Ret true, w1) ->
    download env url' w1 = (Ret true, w2) ->
    endswith url' ".pdf" = true ->
    (forall title texts w3,
        _parse_pdf_file env self tmpfile false w2 = (Ret (title, texts), w3) ->
        index_url env self url metadata w
        = index_segments env self (slugify env url') texts None None metadata (Some title) w3) /\
    (forall e w3,
        _parse_pdf_file env self tmpfile false w2 = (Raise e, w3) ->
        index_url env self url metadata w = (Raise e, w3)).
Proof.
  intros env self url metadata w url' w1 w2 Hsplit Hdl Hsave Hpdf.
  rewrite (index_url_start _ _ _ _ _ _ _ _ Hsplit Hdl).
  split.
  - intros title texts w3 Hparse.
    rewrite bind_run, bind_run, Hsave. cbv beta iota.
    unfold parse_download. rewrite Hpdf.
    rewrite bind_run, Hparse. cbv beta iota. rewrite ret_run. cbv beta iota.
    reflexivity.
  - intros e w3 Hparse.
    rewrite bind_run, bind_run, Hsave. cbv beta iota.
    unfold parse_download. rewrite Hpdf.
    rewrite bind_run, Hparse. reflexivity.
Qed.

Lemma index_url_pdf_download_witness :
  let env := download_env in
  let self := demo_indexer true false in
  let w1 := snd (url_triggers_download env "https://h.example/report.pdf"
                   (add_invoked [C_index_url "https://h.example/report.pdf#p2" (PDict [])]
                      empty_world)) in
  let w2 := snd (download env "https://h.example/report.pdf" w1) in
  let w3 := snd (_parse_pdf_file env self tmpfile false w2) in
  index_url env self "https://h.example/report.pdf#p2" (PDict []) empty_world
  = index_segments env self (slugify env "https://h.example/report.pdf")
      ["Preface"; "a | b"; "item"] None None (PDict []) (Some "A long enough title") w3.
Proof.
  intros env self w1 w2 w3.
  apply (proj1 (index_url_pdf_download env self "https://h.example/report.pdf#p2" (PDict [])
                  empty_world "https://h.example/report.pdf" w1 w2
                  ltac:(vm_compute; reflexivity) ltac:(vm_compute; reflexivity)
                  ltac:(vm_compute; reflexivity) ltac:(vm_compute; reflexivity))
           "A long enough title" ["Preface"; "a | b"; "item"] w3).
  vm_compute. reflexivity.
Defined.

(** ** Splitting strings *)

Lemma string_app_assoc :
  forall a b c : string, ((a ++ b) ++ c)%string = (a ++ (b ++ c))%string.
Proof. induction a as [|x a IH]; intros b c; simpl; [reflexivity | rewrite IH; reflexivity]. Qed.

Lemma string_app_nil_r : forall a : string, (a ++ "")%string = a.
Proof. induction a as [|x a IH]; simpl; [reflexivity | rewrite IH; reflexivity]. Qed.

Lemma rev_string_onto_app :
  forall s acc, rev_string_onto acc s = (rev_string_onto "" s ++ acc)%string.
Proof.
  induction s as [|c s IH]; intros acc; simpl.
  - reflexivity.
  - rewrite (IH (String c acc)), (IH (String c "")).
    rewrite string_app_assoc. reflexivity.
Qed.

Lemma str_in_empty : forall needle, needle <> "" -> str_in needle "" = false.
Proof. intros [|c n] H; [contradiction | reflexivity]. Qed.

(** Without an occurrence of the separator there is one piece. *)
Lemma split_go_absent :
  forall sep s cur,
    str_in sep s = false ->
    split_go sep s 0 cur = [(rev_string_onto "" cur ++ s)%string].
Proof.
  intros sep. induction s as [|c t IH]; intros cur H.
  - simpl. rewrite string_app_nil_r. reflexivity. 
  - cbn [str_in] in H. apply orb_false_iff in H. destruct H as [Hp Ht].
    cbn [split_go]. rewrite Hp. rewrite (IH _ Ht).
    cbn [rev_string_onto]. rewrite (rev_string_onto_app cur (String c "")).
    rewrite string_app_assoc. reflexivity.
Qed.

Lemma split_absent :
  forall sep s, str_in sep s = false -> split sep s = [s].
Proof. intros sep s H. unfold split. rewrite (split_go_absent _ _ _ H). reflexivity. Qed.

Lemma prefix_hash :
  forall c t, prefix "#" (String c t) = if ascii_dec "#"%char c then true else false.
Proof.
  intros c t. cbn [prefix]. destruct (ascii_dec "#"%char c); [destruct t|]; reflexivity.
Qed.

(** The first piece of a split at ["#"]. *)
Lemma split_go_hash :
  forall s cur,
    exists first rest,
      split_go "#" s 0 cur = (rev_string_onto "" cur ++ first)%string :: rest /\
      prefix first s = true /\
      str_in "#" first = false /\
      (str_in "#" s = false -> first = s).
Proof.
  induction s as [|c t IH]; intros cur.
  - exists "", []. simpl. rewrite string_app_nil_r. repeat split; reflexivity.
  - cbn [split_go]. destruct (prefix "#" (String c t)) eqn:Hp.
    + exists "", (split_go "#" t (String.length "#" - 1) "").
      rewrite string_app_nil_r. repeat split; try reflexivity.
      intros Hno. cbn [str_in] in Hno. rewrite Hp in Hno. discriminate.
    + destruct (IH (String c cur)) as (first & rest & Hs & Hpre & Hin & Hall).
      exists (String c first), rest. repeat split.
      * rewrite Hs. cbn [rev_string_onto].
        rewrite (rev_string_onto_app cur (String c "")).
        rewrite string_app_assoc. reflexivity.
      * cbn [prefix]. destruct (ascii_dec c c) as [_|n]; [exact Hpre | contradiction].
      * cbn [str_in]. rewrite Hin.
        assert (Hc : prefix "#" (String c first) = false).
        { rewrite prefix_hash in Hp |- *. exact Hp. }
        rewrite Hc. reflexivity.
      * intros Hno. cbn [str_in] in Hno. apply orb_false_iff in Hno.
        rewrite (Hall (proj2 Hno)). reflexivity.
Qed.

(** X22.  The URL that [index_url] works on, [url.split("#")[0]], always
    exists; it is a prefix of the URL given, contains no ["#"], and is the
    whole URL when that has no fragment. *)
Theorem index_url_fragment_removed :
  forall url,
    exists url',
      index_nat (split "#" url) 0 = Ret url' /\
      prefix url' url = true /\
      str_in "#" url' = false /\
      (str_in "#" url = false -> url' = url).
Proof.
  intros url. unfold split.
  destruct (split_go_hash url "") as (first & rest & Hs & Hpre & Hin & Hall).
  exists first. rewrite Hs. simpl. repeat split; assumption.
Qed.

(** ** [_index_file]: a conflict that names no document *)

(** X23.  With [reindex] on, a 409 answer whose ["details"] text does not
    contain ["document id"] makes [_index_file] raise an [IndexError];
    neither a delete request nor a second upload is sent. *)
Theorem index_file_conflict_without_id :
  forall env self filename uri metadata w md response d details,
    path_exists env (history w) filename = true ->
    open_rb env (history w) filename = Ret tt ->
    json_dumps env metadata = Ret md ->
    let rq := upload_request self "&d=True" (Files uri filename md) in
    session_post env (history w ++ [IoOpenRead filename]) rq = Ret response ->
    status_code response = 409 ->
    reindex self = true ->
    json response = Ret (PDict d) ->
    lookup "details" d = Some (PStr details) ->
    str_in "document id" details = false ->
    exists w',
      _index_file env self filename uri metadata w = (Raise IndexError, w') /\
      history w' = history w ++ [IoOpenRead filename; IoPost rq].
Proof.
  intros env self filename uri metadata w md response d details
         Hex Hop Hmd rq Hp Hst Hre Hj Hd Hno.
  assert (Hid : conflict_doc_id response = Raise IndexError).
  { unfold conflict_doc_id. rewrite Hj. simpl. rewrite Hd. simpl.
    rewrite (split_absent _ _ Hno). reflexivity. }
  unfold _index_file.
  rewrite bind_run, enter_run. cbv beta iota.
  rewrite bind_run. unfold peek. cbv beta iota. rewrite history_add_invoked, Hex.
  cbn [negb]. rewrite bind_run, io_run, history_add_invoked, Hop. cbv beta iota.
  rewrite bind_run, lift_run, Hmd. cbv beta iota.
  rewrite bind_run. unfold post. rewrite io_run, history_record, history_add_invoked.
  fold rq. rewrite Hp. cbv beta iota. rewrite Hst. change (409 =? 409) with true.
  cbv iota. rewrite Hre. rewrite bind_run, lift_run, Hid.
  eexists. split; [reflexivity|]. world_eq.
Qed.

Lemma index_file_conflict_without_id_witness :
  let self := demo_indexer true false in
  let env := quiet_env (always 409 (PDict [("details", PStr "already exists")]))
               (fun _ => Ret "{}") in
  exists w',
    _index_file env self "a.pdf" "u" (PDict []) empty_world = (Raise IndexError, w') /\
    history w' = [] ++ [IoOpenRead "a.pdf";
                        IoPost (upload_request self "&d=True" (Files "u" "a.pdf" "{}"))].
Proof.
  intros self env.
  exact (index_file_conflict_without_id env self "a.pdf" "u" (PDict []) empty_world "{}"
           (ok_response 409 (Ret (PDict [("details", PStr "already exists")])))
           [("details", PStr "already exists")] "already exists"
           eq_refl eq_refl eq_refl eq_refl eq_refl eq_refl eq_refl eq_refl eq_refl).
Defined.

(** ** Table summarization: configuration and calls *)

(** X24.  An [Indexer] built without an OpenAI key never makes the tables
    pass, even when [summarize_tables] is configured: on an existing file
    that is not a PDF, or is a PDF below 50 MB, [index_file] goes straight
    to the upload. *)
Theorem index_file_without_api_key :
  forall env cfg endpoint customer_id corpus_id api_key reindex remove_code
         filename uri metadata w,
    vectara_openai_api_key cfg = None ->
    let self := init cfg endpoint customer_id corpus_id api_key reindex remove_code in
    path_exists env (history w) filename = true ->
    (endswith filename ".pdf" = false \/
     exists size, get_file_size_in_MB env (history w) filename = Ret size /\ (size < 50)%Q) ->
    summarize_tables self = false /\
    index_file env self filename uri metadata w
    = _index_file env self filename uri metadata
        (add_invoked [C_index_file filename uri metadata] w).
Proof.
  intros env cfg endpoint customer_id corpus_id api_key reindex remove_code
         filename uri metadata w Hkey self Hex Hcase.
  assert (Hoff : summarize_tables self = false).
  { subst self. unfold init. cbn [summarize_tables]. rewrite Hkey. reflexivity. }
  split; [exact Hoff|].
  apply index_file_direct; [exact Hex|].
  destruct Hcase as [Hpdf | Hsmall]; [left; exact Hpdf | right; split; assumption].
Qed.

Lemma index_file_without_api_key_witness :
  let env := pdf_env (1 # 1) (always 200 (PDict [])) in
  let self := init (mkCfg None (Some true) None) "api.example" "c1" 7 "k" true true in
  summarize_tables self = false /\
  index_file env self "a.pdf" "u" (PDict []) empty_world
  = _index_file env self "a.pdf" "u" (PDict [])
      (add_invoked [C_index_file "a.pdf" "u" (PDict [])] empty_world).
Proof.
  intros env self.
  refine (index_file_without_api_key env (mkCfg None (Some true) None) "api.example" "c1" 7
            "k" true true "a.pdf" "u" (PDict []) empty_world eq_refl eq_refl _).
  right. exists (1 # 1)%Q. split; [reflexivity | unfold Qlt; simpl; lia].
Defined.

Lemma mapM_pdf_text_history :
  forall env self l w texts w',
    mapM (pdf_text env self) l w = (Ret texts, w') ->
    history w' = history w ++ summarize_calls self l.
Proof.
  intros env self. unfold summarize_calls.
  induction l as [|e l IH]; intros w texts w' H.
  - cbn [mapM] in H. rewrite ret_run in H. inversion H; subst.
    destruct (summarize_tables self); cbn; rewrite app_nil_r; reflexivity.
  - cbn [mapM] in H. rewrite bind_run in H.
    destruct (pdf_text env self e w) as [[t|ex] w1] eqn:He; [|discriminate].
    rewrite bind_run in H.
    destruct (mapM (pdf_text env self) l w1) as [[ts|ex] w2] eqn:Hl; [|discriminate].
    rewrite ret_run in H. inversion H; subst.
    rewrite (IH _ _ _ Hl). unfold pdf_text in He. cbn [filter].
    destruct (is_Table e); destruct (summarize_tables self); cbn [andb] in He;
      try (rewrite io_run in He); try (rewrite ret_run in He);
      inversion He; subst; rewrite ?history_record; cbn [map];
      rewrite <- ?app_assoc; reflexivity.
Qed.

(** X25.  A successful [_parse_pdf_file] asks for the partition, builds
    the summarizer, and then calls the summarizer once for each kept
    [Table] element, in partition order, when table summarization is on,
    and not at all when it is off. *)
Theorem parse_pdf_file_interactions :
  forall env self filename tables_only w elements title texts w',
    partition_pdf env (history w) filename = Ret elements ->
    _parse_pdf_file env self filename tables_only w = (Ret (title, texts), w') ->
    history w' = history w ++
      [IoPartitionPdf filename; IoNewSummarizer (vectara_openai_api_key (cfg self))] ++
      summarize_calls self (segments_of tables_only elements).
Proof.
  intros env self filename tables_only w elements title texts w' Hpart H.
  rewrite <- filter_pdf_selected.
  unfold _parse_pdf_file in H.
  rewrite bind_run, enter_run in H. cbv beta iota in H.
  rewrite bind_run, io_run, history_add_invoked, Hpart in H. cbv beta iota zeta in H.
  rewrite bind_run, io_run in H.
  destruct (new_TableSummarizer env _ _) as [u|ex]; [|discriminate].
  cbv beta iota in H. rewrite bind_run in H.
  match type of H with
  | context [mapM ?f ?l ?w0] => destruct (mapM f l w0) as [[ts|ex] w2] eqn:Hm
  end; [|discriminate].
  rewrite ret_run in H. inversion H; subst.
  rewrite (mapM_pdf_text_history _ _ _ _ _ _ Hm).
  autorewrite with world. rewrite <- !app_assoc. reflexivity.
Qed.

Lemma parse_pdf_file_interactions_witness :
  let env := pdf_env (1 # 1) (always 200 (PDict [])) in
  let self := demo_indexer true true in
  history (snd (_parse_pdf_file env self "f.pdf" false empty_world))
  = [] ++ [IoPartitionPdf "f.pdf"; IoNewSummarizer (vectara_openai_api_key (cfg self))] ++
    summarize_calls self (segments_of false demo_elements).
Proof.
  intros env self.
  apply (parse_pdf_file_interactions env self "f.pdf" false empty_world demo_elements
           "A long enough title" ["Preface"; "a | b"; "item"]
           (snd (_parse_pdf_file env self "f.pdf" false empty_world)));
    vm_compute; reflexivity.
Defined.

Example summarize_calls_ex :
  summarize_calls (demo_indexer true true) (segments_of false demo_elements)
  = [IoSummarize "a | b"].
Proof. reflexivity. Qed.

(** X26.  The summarizer is constructed on every parse, also when table
    summarization is off: if its construction raises, [_parse_pdf_file]
    raises, whatever the setting and the mode. *)
Theorem parse_pdf_file_summarizer_fails :
  forall env self filename tables_only w elements e,
    partition_pdf env (history w) filename = Ret elements ->
    new_TableSummarizer env (history w ++ [IoPartitionPdf filename])
      (vectara_openai_api_key (cfg self)) = Raise e ->
    exists w',
      _parse_pdf_file env self filename tables_only w = (Raise e, w') /\
      history w' = history w ++
        [IoPartitionPdf filename; IoNewSummarizer (vectara_openai_api_key (cfg self))].
Proof.
  intros env self filename tables_only w elements e Hpart Hnew.
  unfold _parse_pdf_file.
  rewrite bind_run, enter_run. cbv beta iota.
  rewrite bind_run, io_run, history_add_invoked, Hpart. cbv beta iota zeta.
  rewrite bind_run, io_run, history_record, history_add_invoked, Hnew.
  eexists. split; [reflexivity|]. world_eq.
Qed.

(** X27.  On the large-PDF path nothing is caught: an exception of the
    size query or of the local extraction comes out of [index_file]. *)
Theorem index_file_large_pdf_raises :
  forall env self filename uri metadata w,
    path_exists env (history w) filename = true ->
    endswith filename ".pdf" = true ->
    let w0 := add_invoked [C_index_file filename uri metadata] w in
    (forall e,
        get_file_size_in_MB env (history w) filename = Raise e ->
        index_file env self filename uri metadata w = (Raise e, w0)) /\
    (forall size e w1,
        get_file_size_in_MB env (history w) filename = Ret size ->
        (50 <= size)%Q ->
        _parse_pdf_file env self filename false w0 = (Raise e, w1) ->
        index_file env self filename uri metadata w = (Raise e, w1)).
Proof.
  intros env self filename uri metadata w Hex Hpdf w0.
  rewrite (index_file_start _ _ _ _ _ _ Hex). rewrite Hpdf. fold w0.
  split.
  - intros e Hsize. rewrite bind_run, bind_run. unfold file_size.
    subst w0. rewrite history_add_invoked, Hsize. reflexivity.
  - intros size e w1 Hsize Hbig Hparse. apply Qle_bool_iff in Hbig.
    rewrite bind_run, bind_run. unfold file_size at 1.
    replace (history w0) with (history w) by reflexivity.
    rewrite Hsize. cbv beta iota. rewrite ret_run. cbv beta iota. rewrite Hbig.
    rewrite bind_run, Hparse. reflexivity.
Qed.

Lemma parse_pdf_file_summarizer_fails_witness :
  let env := set_new_TableSummarizer (fun _ _ => Raise (OtherError "api_key must be set"))
               (pdf_env (1 # 1) (always 200 (PDict []))) in
  let self := demo_indexer true false in
  exists w',
    _parse_pdf_file env self "f.pdf" false empty_world
      = (Raise (OtherError "api_key must be set"), w') /\
    history w' = [] ++
      [IoPartitionPdf "f.pdf"; IoNewSummarizer (vectara_openai_api_key (cfg self))].
Proof.
  intros env self.
  exact (parse_pdf_file_summarizer_fails env self "f.pdf" false empty_world demo_elements
           (OtherError "api_key must be set") eq_refl eq_refl).
Defined.

Lemma index_file_large_pdf_raises_witness :
  let env := set_get_file_size_in_MB (fun _ _ => Raise (OtherError "stat failed"))
               (pdf_env (1 # 1) (always 200 (PDict []))) in
  let self := demo_indexer true false in
  index_file env self "big.pdf" "u" (PDict []) empty_world
  = (Raise (OtherError "stat failed"),
     add_invoked [C_index_file "big.pdf" "u" (PDict [])] empty_world).
Proof.
  intros env self.
  exact (proj1 (index_file_large_pdf_raises env self "big.pdf" "u" (PDict []) empty_world
                  eq_refl eq_refl)
           (OtherError "stat failed") eq_refl).
Defined.

(** ** Links and downloads *)

(** X28.  The links that [fetch_page_contents] reports are exactly the
    [href] values that are present and not empty. *)
Theorem kept_hrefs_spec :
  forall hrefs s, In s (kept_hrefs hrefs) <-> In (Some s) hrefs /\ s <> "".
Proof.
  intros hrefs s. unfold kept_hrefs. rewrite in_flat_map. split.
  - intros (h & Hin & Hs). destruct h as [x|]; [|contradiction].
    destruct (x =? "")%string eqn:E; [contradiction|].
    destruct Hs as [<- | []]. split; [exact Hin|].
    apply String.eqb_neq. exact E.
  - intros (Hin & Hne). exists (Some s). split; [exact Hin|].
    apply String.eqb_neq in Hne. rewrite Hne. left. reflexivity.
Qed.

(** X29.  A download answered with status 200 is written, whatever the
    URL, to the one path ["tmpfile"], after which [download] reports
    success. *)
Theorem download_saved :
  forall env url w chunks,
    session_get env (history w) url = Ret (200, Ret chunks) ->
    write_file env (history w ++ [IoGet url]) tmpfile chunks = Ret tt ->
    exists w',
      download env url w = (Ret true, w') /\
      history w' = history w ++ [IoGet url; IoWriteFile "tmpfile" chunks].
Proof.
  intros env url w chunks Hget Hwrite.
  unfold download. rewrite bind_run, io_run, Hget. cbv beta iota.
  change (200 =? 200) with true. cbv iota.
  rewrite bind_run, io_run, history_record, Hwrite. cbv beta iota.
  rewrite bind_run, log_run. cbv beta iota. rewrite ret_run.
  eexists. split; [reflexivity|]. world_eq.
Qed.

Lemma download_saved_witness :
  let env := set_session_get (fun _ _ => Ret (200, Ret ["%PDF"; "-1.7"])) download_env in
  exists w',
    download env "https://h.example/report.pdf" empty_world = (Ret true, w') /\
    history w' = [] ++ [IoGet "https://h.example/report.pdf";
                        IoWriteFile "tmpfile" ["%PDF"; "-1.7"]].
Proof.
  intros env.
  exact (download_saved env "https://h.example/report.pdf" empty_world ["%PDF"; "-1.7"]
           eq_refl eq_refl).
Defined.
